(** * Speech_App: the voice-translation pipeline of [app.py]

    A shallow embedding of the five functions of [app.py]
    ([transcribe_audio], [detect_language], [translate_text],
    [text_to_speech], [pipeline_translate]) and the properties of the
    pipeline contract.

    Python strings are sequences of Unicode code points.  The remote
    services and the file system are opaque: they are the fields of an
    environment record, each reply may depend on every call made so far,
    and each call either returns a value or raises an exception with a
    message.  The functions thread a trace of the calls they make, so that
    "is invoked", "retries once" and "sleeps" are observable. *)

From Stdlib Require Import String Ascii NArith Bool Lia List.
Import ListNotations.

Local Open Scope N_scope.
Local Open Scope list_scope.

(** ** Python strings *)

Module PyStr.

(** A [str] is a list of code points. *)
Definition char := N.
Definition str := list char.

(** A string literal of the source (all of them are ASCII). *)
Definition py (s : string) : str := map N_of_ascii (list_ascii_of_string s).

(** [a == b] on strings. *)
Fixpoint str_eqb (a b : str) : bool :=
  match a, b with
  | [], [] => true
  | x :: a', y :: b' => N.eqb x y && str_eqb a' b'
  | _, _ => false
  end.

(** [s.startswith(p)]. *)
Fixpoint startswith (s p : str) {struct p} : bool :=
  match p, s with
  | [], _ => true
  | y :: p', x :: s' => N.eqb x y && startswith s' p'
  | _ :: _, [] => false
  end.

(** [c.isspace()]: the code points Python's [str.strip()] removes. *)
Definition isspace (c : char) : bool :=
  ((9 <=? c) && (c <=? 13)) || ((28 <=? c) && (c <=? 32))
  || (c =? 133) || (c =? 160) || (c =? 5760)
  || ((8192 <=? c) && (c <=? 8202))
  || (c =? 8232) || (c =? 8233) || (c =? 8239) || (c =? 8287) || (c =? 12288).

(** [s.lstrip()], [s.rstrip()], [s.strip()]. *)
Fixpoint lstrip (s : str) : str :=
  match s with
  | [] => []
  | c :: s' => if isspace c then lstrip s' else s
  end.

Definition rstrip (s : str) : str := rev (lstrip (rev s)).

Definition strip (s : str) : str := rstrip (lstrip s).

(** Truthiness of a string: [not s] is [true] exactly for the empty one. *)
Definition py_not (s : str) : bool :=
  match s with [] => true | _ :: _ => false end.

(** What "whitespace-only" and "trimmed" mean in the contract. *)
Definition whitespace_only (s : str) : bool := forallb isspace s.

Definition no_outer_space (s : str) : Prop :=
  (forall c s', s = c :: s' -> isspace c = false) /\
  (forall c s', s = s' ++ [c] -> isspace c = false).

(** [t] is [s] with its leading and trailing whitespace removed. *)
Definition trimmed_of (s t : str) : Prop :=
  exists l r, s = l ++ t ++ r /\
    whitespace_only l = true /\ whitespace_only r = true /\ no_outer_space t.

(** A value of the result tuple: a string or [None]. *)
Inductive pyval : Type :=
| PyNone : pyval
| PyString : str -> pyval.

(** [isinstance(v, str)]. *)
Definition isinstance_str (v : pyval) : bool :=
  match v with PyString _ => true | PyNone => false end.

(** [v.startswith(p)] for a value known to be a string. *)
Definition pv_startswith (v : pyval) (p : str) : bool :=
  match v with PyString s => startswith s p | PyNone => false end.

End PyStr.
Export PyStr.

(** ** The outside world *)

Module World.

Definition bytes := list Byte.byte.

(** The four components the orchestrator sequences. *)
Inductive component : Type :=
| Transcriber | Detector | Translator | Synthesizer.

(** What a run does that can be seen from outside: a component is entered,
    or a call leaves the program. *)
Inductive event : Type :=
| EvEnter (c : component)
| EvTempFile (suffix : str)                    (* tempfile.NamedTemporaryFile *)
| EvWrite (path : str) (data : bytes)          (* tmp_file.write, then close *)
| EvOpen (path : str)                          (* open(path, "rb") *)
| EvTranscribe (model : str) (audio : bytes)   (* client.audio.transcriptions.create *)
| EvDetect (text : str)                        (* langdetect.detect *)
| EvNewTranslator (source target : str)        (* GoogleTranslator(...) *)
| EvTranslate (source target text : str)       (* translator.translate *)
| EvSleep (seconds : N)                        (* time.sleep *)
| EvNewTTS (text lang : str)                   (* gTTS(...) *)
| EvSave (text lang path : str).               (* tts.save *)

Definition trace := list event.

(** A call returns a value or raises an exception; [msg] is [str(e)].
    The exceptions are those that derive from [Exception], which is what
    the handlers of the source catch. *)
Inductive outcome (A : Type) : Type :=
| Ok (a : A)
| Raise (msg : str).
Arguments Ok {A} a.
Arguments Raise {A} msg.

(** The collaborators of [app.py].  Every reply is a function of the calls
    made so far and of the arguments.  [str_lower] is [str.lower()], whose
    Unicode case tables are not part of this development.  The reply of
    [translator.translate] is a string or [None]: the library returns [None]
    for some requests, and the source uses the reply unchecked. *)
Record env : Type := {
  str_lower : str -> str;
  temp_create : trace -> str -> outcome str;
  temp_write : trace -> str -> bytes -> outcome unit;
  open_rb : trace -> str -> outcome bytes;
  transcriptions_create : trace -> str -> bytes -> outcome str;
  langdetect_detect : trace -> str -> outcome str;
  translator_new : trace -> str -> str -> outcome unit;
  translator_translate : trace -> str -> str -> str -> outcome pyval;
  gtts_new : trace -> str -> str -> outcome unit;
  gtts_save : trace -> str -> str -> str -> outcome unit
}.

(** Computations: the trace so far goes in, a result or an exception and the
    extended trace come out. *)
Definition M (A : Type) : Type := trace -> outcome A * trace.

Definition ret {A} (a : A) : M A := fun h => (Ok a, h).

Definition bind {A B} (m : M A) (k : A -> M B) : M B :=
  fun h => match m h with
           | (Ok a, h') => k a h'
           | (Raise e, h') => (Raise e, h')
           end.

(** [raise]: an exception with message [msg]. *)
Definition raise {A} (msg : str) : M A := fun h => (Raise msg, h).

(** [v.strip()] and [v.startswith(p)] on a value that may be [None]: on
    [None] the attribute lookup raises an [AttributeError]. *)
Definition strip_of (v : pyval) : M str :=
  match v with
  | PyString s => fun h => (Ok (strip s), h)
  | PyNone => raise (py "'NoneType' object has no attribute 'strip'")
  end.

Definition startswith_of (v : pyval) (p : str) : M (str * bool) :=
  match v with
  | PyString s => fun h => (Ok (s, startswith s p), h)
  | PyNone => raise (py "'NoneType' object has no attribute 'startswith'")
  end.

(** [try: body except Exception as e: handler(e)]. *)
Definition try_except {A} (body : M A) (handler : str -> M A) : M A :=
  fun h => match body h with
           | (Ok a, h') => (Ok a, h')
           | (Raise e, h') => handler e h'
           end.

(** One call that leaves the program: the reply is computed from the trace
    before the call, and the call is appended to the trace. *)
Definition call {A} (ev : event) (reply : trace -> outcome A) : M A :=
  fun h => (reply h, h ++ [ev]).

(** Entering a component, and [time.sleep]: both only leave a mark. *)
Definition mark (ev : event) : M unit := fun h => (Ok tt, h ++ [ev]).

(** The events of [h'] that came after [h]. *)
Definition since (h h' : trace) : trace := skipn (length h) h'.

Definition is_translate (ev : event) : bool :=
  match ev with EvTranslate _ _ _ => true | _ => false end.

Definition is_sleep (ev : event) : bool :=
  match ev with EvSleep _ => true | _ => false end.

Definition is_enter (c : component) (ev : event) : bool :=
  match ev, c with
  | EvEnter Transcriber, Transcriber | EvEnter Detector, Detector
  | EvEnter Translator, Translator | EvEnter Synthesizer, Synthesizer => true
  | _, _ => false
  end.

(** How often the remote translation service was called. *)
Definition translate_calls (d : trace) : nat := length (filter is_translate d).

Definition sleeps (d : trace) : nat := length (filter is_sleep d).

Definition entered (c : component) (d : trace) : bool := existsb (is_enter c) d.

End World.
Export World.

Declare Scope py_scope.
Delimit Scope py_scope with py.
Notation "x <- m ;; k" := (bind m (fun x => k))
  (at level 61, m at next level, right associativity) : py_scope.
Notation "m ;;; k" := (bind m (fun _ => k))
  (at level 61, right associativity) : py_scope.
Notation "' pat <- m ;; k" := (bind m (fun x => match x with pat => k end))
  (at level 61, pat pattern, m at next level, right associativity) : py_scope.
Local Open Scope py_scope.

(** ** The program *)

Module App.

Section Program.

Variable sv : env.

(** [transcribe_audio] (lines 23-33). *)
Definition transcribe_audio (audio_path : str) : M str :=
  mark (EvEnter Transcriber) ;;;
  try_except
    (f <- call (EvOpen audio_path) (fun h => open_rb sv h audio_path) ;;
     transcription <-
       call (EvTranscribe (py "whisper-large-v3") f)
            (fun h => transcriptions_create sv h (py "whisper-large-v3") f) ;;
     ret (strip transcription))
    (fun e => ret (py "[Transcription error] " ++ e)).

(** [detect_language] (lines 38-42). *)
Definition detect_language (text : str) : M str :=
  mark (EvEnter Detector) ;;;
  try_except
    (call (EvDetect text) (fun h => langdetect_detect sv h text))
    (fun _ => ret (py "unknown")).

(** [translate_text] (lines 47-58).  It returns what [translator.translate]
    replied, a string or [None], or a sentinel string. *)
Definition translate_text (text dest_lang : str) : M pyval :=
  mark (EvEnter Translator) ;;;
  if py_not (strip text)
  then ret (PyString (py "[Translation error] Empty input text"))
  else
    try_except
      (call (EvNewTranslator (py "auto") dest_lang)
            (fun h => translator_new sv h (py "auto") dest_lang) ;;;
       translated <-
         call (EvTranslate (py "auto") dest_lang text)
              (fun h => translator_translate sv h (py "auto") dest_lang text) ;;
       stripped <- strip_of translated ;;
       if str_eqb (str_lower sv stripped) (str_lower sv (strip text))
       then
         mark (EvSleep 1) ;;;
         translated <-
           call (EvTranslate (py "auto") dest_lang text)
                (fun h => translator_translate sv h (py "auto") dest_lang text) ;;
         ret translated
       else ret translated)
      (fun e => ret (PyString (py "[Translation error] " ++ e))).

(** [text_to_speech] (lines 63-70). *)
Definition text_to_speech (text lang : str) : M str :=
  mark (EvEnter Synthesizer) ;;;
  try_except
    (call (EvNewTTS text lang) (fun h => gtts_new sv h text lang) ;;;
     temp_file_name <-
       call (EvTempFile (py ".mp3")) (fun h => temp_create sv h (py ".mp3")) ;;
     call (EvSave text lang temp_file_name)
          (fun h => gtts_save sv h text lang temp_file_name) ;;;
     ret temp_file_name)
    (fun e => ret (py "[TTS error] " ++ e)).

(** The result tuple of the orchestrator. *)
Definition result : Type := pyval * pyval * pyval * pyval.

(** Lines 88-89: the rebinding of [target_lang_hint]. *)
Definition resolve_target (target_lang_hint detected : str) : str :=
  if str_eqb target_lang_hint (py "auto")
  then (if str_eqb detected (py "en") then py "ur" else py "en")
  else target_lang_hint.

(** Lines 91-93: translate unless the target is the detected language. *)
Definition translate_stage (transcribed detected target_lang_hint : str)
  : M pyval :=
  if negb (str_eqb target_lang_hint detected)
  then translate_text transcribed target_lang_hint
  else ret (PyString transcribed).

(** Lines 91-102: what follows once the target is resolved.  The test of
    line 95 is outside every [try]: on [None] it raises; when it passes,
    [translated] is a string, here [text]. *)
Definition pipeline_tail (transcribed detected target_lang_hint : str) : M result :=
  translated <- translate_stage transcribed detected target_lang_hint ;;
  '(text, failed) <- startswith_of translated (py "[Translation error]") ;;
  if failed
  then ret (PyString transcribed, PyString detected, translated, PyNone)
  else
    audio_output <- text_to_speech text target_lang_hint ;;
    if isinstance_str (PyString audio_output)
       && startswith audio_output (py "[TTS error]")
    then ret (PyString transcribed, PyString detected, translated, PyNone)
    else ret (PyString transcribed, PyString detected, translated,
              PyString audio_output).

(** [pipeline_translate] (lines 75-102).  [audio_file] is what the upload
    control gives: [None], or an uploaded file, which is always truthy. *)
Definition pipeline_translate (audio_file : option bytes) (target_lang_hint : str)
  : M result :=
  match audio_file with
  | None => ret (PyString (py "[Error] No audio input"), PyNone, PyNone, PyNone)
  | Some data =>
      tmp_path <- call (EvTempFile (py ".wav")) (fun h => temp_create sv h (py ".wav")) ;;
      call (EvWrite tmp_path data) (fun h => temp_write sv h tmp_path data) ;;;
      transcribed <- transcribe_audio tmp_path ;;
      if startswith transcribed (py "[Transcription error]")
      then ret (PyString transcribed, PyNone, PyNone, PyNone)
      else
        detected <- detect_language transcribed ;;
        pipeline_tail transcribed detected (resolve_target target_lang_hint detected)
  end.

End Program.

End App.
Export App.

(** ** Reading the result and the run *)

Module Contract.

(** The fields of the Pipeline Result. *)
Definition transcribedText (r : result) : pyval := let '(a, _, _, _) := r in a.
Definition detectedLanguage (r : result) : pyval := let '(_, b, _, _) := r in b.
Definition translatedText (r : result) : pyval := let '(_, _, c, _) := r in c.
Definition audioOutputPath (r : result) : pyval := let '(_, _, _, d) := r in d.

Definition fields (r : result) : list pyval :=
  [transcribedText r; detectedLanguage r; translatedText r; audioOutputPath r].

(** [err] occurs in the value [v]: [v] is a string that contains it. *)
Definition occurs_in (err : str) (v : pyval) : Prop :=
  match v with
  | PyNone => False
  | PyString s => exists pre post, s = pre ++ err ++ post
  end.

(** No part of the Translator ran: it was not entered, no translator was
    built, the remote service was not called and nothing slept. *)
Definition translator_event (ev : event) : bool :=
  match ev with
  | EvEnter Translator | EvNewTranslator _ _ | EvTranslate _ _ _ | EvSleep _ => true
  | _ => false
  end.

Definition translator_free (d : trace) : bool :=
  forallb (fun ev => negb (translator_event ev)) d.

(** The one-shot retry: the remote service was called twice with the same
    request, with one sleep of one second between the two calls. *)
Definition retried_once (dest_lang text : str) (d : trace) : Prop :=
  translate_calls d = 2%nat /\ sleeps d = 1%nat /\
  exists pre, d = pre ++ [EvTranslate (py "auto") dest_lang text; EvSleep 1;
                          EvTranslate (py "auto") dest_lang text].

(** Plain case-insensitive identity of two strings. *)
Definition case_insensitively_identical (sv : env) (a b : str) : Prop :=
  str_lower sv a = str_lower sv b.

(** Lower-casing neither adds nor removes outer whitespace of [s]. *)
Definition lower_keeps_outer_space (sv : env) (s : str) : Prop :=
  str_lower sv (strip s) = strip (str_lower sv s).

Section Stages.

Variable sv : env.
Variable data : bytes.

(** The invocation with an uploaded file started at trace [h] gets
    [transcribed] from the Transcriber, which leaves trace [h2]. *)
Definition transcribes (h : trace) (transcribed : str) (h2 : trace) : Prop :=
  exists tmp_path,
    temp_create sv h (py ".wav") = Ok tmp_path /\
    temp_write sv (h ++ [EvTempFile (py ".wav")]) tmp_path data = Ok tt /\
    transcribe_audio sv tmp_path (h ++ [EvTempFile (py ".wav"); EvWrite tmp_path data])
      = (Ok transcribed, h2).

(** ... passes the first gate and gets [detected] from the Detector. *)
Definition detects (h : trace) (transcribed detected : str) (h3 : trace) : Prop :=
  exists h2,
    transcribes h transcribed h2 /\
    startswith transcribed (py "[Transcription error]") = false /\
    detect_language sv transcribed h2 = (Ok detected, h3).

(** ... gets [translated] from lines 91-93. *)
Definition translates (hint : str) (h : trace) (transcribed detected translated : str)
    (h4 : trace) : Prop :=
  exists h3,
    detects h transcribed detected h3 /\
    translate_stage sv transcribed detected (resolve_target hint detected) h3
      = (Ok (PyString translated), h4).

(** ... passes the second gate and gets [audio_output] from the Synthesizer. *)
Definition synthesizes (hint : str) (h : trace)
    (transcribed detected translated audio_output : str) (h5 : trace) : Prop :=
  exists h4,
    translates hint h transcribed detected translated h4 /\
    startswith translated (py "[Translation error]") = false /\
    text_to_speech sv translated (resolve_target hint detected) h4
      = (Ok audio_output, h5).

End Stages.

(** The stability guard of the Translator, as the contract words it: what
    is returned differs from the input, or one retry was made before a
    case-insensitively identical text was returned; and whenever the reply
    to the first remote call of the invocation is a text case-insensitively
    identical to the input, the retry is made. *)
Definition stability_guard (sv : env) (text dest_lang : str) (h : trace) : Prop :=
  let '(r, h') := translate_text sv text dest_lang h in
  (r <> Ok (PyString text) \/
   (retried_once dest_lang text (since h h') /\
    exists t, r = Ok (PyString t) /\ case_insensitively_identical sv t text))
  /\
  (forall pre post t1,
     since h h' = pre ++ EvTranslate (py "auto") dest_lang text :: post ->
     translate_calls pre = 0%nat ->
     translator_translate sv (h ++ pre) (py "auto") dest_lang text
       = Ok (PyString t1) ->
     case_insensitively_identical sv t1 text ->
     retried_once dest_lang text (since h h')).

(** Lower-casing leaves alone the outer whitespace of the first reply of the
    remote service, when that reply is a text. *)
Definition first_reply_keeps_outer_space (sv : env) (text dest_lang : str)
    (h : trace) : Prop :=
  match translator_translate sv
          (h ++ [EvEnter Translator; EvNewTranslator (py "auto") dest_lang])
          (py "auto") dest_lang text with
  | Ok (PyString t1) => lower_keeps_outer_space sv t1
  | _ => True
  end.

(** The sentinel the Translator builds when its first remote call, made
    after the translator was built at trace [h], fails: the call raises, or
    it replies [None] and the comparison of line 53 raises on it. *)
Definition first_call_sentinel (sv : env) (text dest_lang : str) (h : trace)
  : option str :=
  match translator_translate sv
          (h ++ [EvEnter Translator; EvNewTranslator (py "auto") dest_lang])
          (py "auto") dest_lang text with
  | Raise e => Some (py "[Translation error] " ++ e)
  | Ok PyNone =>
      Some (py "[Translation error] " ++
            py "'NoneType' object has no attribute 'strip'")
  | Ok (PyString _) => None
  end.

(** The synthesis-failure gate, as the contract words it. *)
Definition synthesis_failure_hidden (sv : env) (data : bytes) (hint : str) (h : trace)
  : Prop :=
  forall transcribed detected translated audio_output h5,
    synthesizes sv data hint h transcribed detected translated audio_output h5 ->
    startswith audio_output (py "[TTS error]") = true ->
    exists r,
      pipeline_translate sv (Some data) hint h = (Ok r, h5) /\
      r = (PyString transcribed, PyString detected, PyString translated, PyNone) /\
      forall v, In v (fields r) -> ~ occurs_in audio_output v.

End Contract.
Export Contract.

(** ** Scripted collaborators, for running the program on examples *)

Module Script.

(** Lower-casing of the ASCII letters only. *)
Definition ascii_lower (s : str) : str :=
  map (fun c => if (65 <=? c) && (c <=? 90) then c + 32 else c) s.

(** A world where the file system works, and where transcription,
    detection, the first and the second translation call, and synthesis
    reply as given. *)
Definition scripted_replies (whisper detect : outcome str)
    (first second : outcome pyval) (tts : outcome unit) : env :=
  {| str_lower := ascii_lower;
     temp_create := fun _ suffix => Ok (py "/tmp/tmpk3x9" ++ suffix);
     temp_write := fun _ _ _ => Ok tt;
     open_rb := fun _ _ => Ok [];
     transcriptions_create := fun _ _ _ => whisper;
     langdetect_detect := fun _ _ => detect;
     translator_new := fun _ _ _ => Ok tt;
     translator_translate := fun h _ _ _ =>
       match translate_calls h with O => first | S _ => second end;
     gtts_new := fun _ _ _ => Ok tt;
     gtts_save := fun _ _ _ _ => tts |}.

(** A reply of the translation service that is a text, or an exception. *)
Definition text_reply (o : outcome str) : outcome pyval :=
  match o with
  | Ok s => Ok (PyString s)
  | Raise e => Raise e
  end.

(** ... where the translation service replies texts or raises. *)
Definition scripted (whisper detect first second : outcome str) (tts : outcome unit)
  : env :=
  scripted_replies whisper detect (text_reply first) (text_reply second) tts.

(** "ہیلو دنیا". *)
Definition hello_ur : str := [1729; 1740; 1604; 1608; 32; 1583; 1606; 1740; 1575].

(** Everything works: "Hello world" is English and is translated. *)
Definition happy : env :=
  scripted (Ok (py " Hello world ")) (Ok (py "en")) (Ok hello_ur) (Ok hello_ur) (Ok tt).

(** The translation service echoes its input the first time. *)
Definition echo : env :=
  scripted (Ok (py "Hello world")) (Ok (py "en")) (Ok (py "hello World "))
           (Ok hello_ur) (Ok tt).

(** The translation service fails with the message "boom". *)
Definition translate_down : env :=
  scripted (Ok (py "Hello world")) (Ok (py "en")) (Raise (py "boom"))
           (Raise (py "boom")) (Ok tt).

(** The translation service echoes its input, then replies [None]. *)
Definition echo_then_null : env :=
  scripted_replies (Ok (py "Hello world")) (Ok (py "en"))
                   (Ok (PyString (py "hello World "))) (Ok PyNone) (Ok tt).

(** The translation service replies [None] at once. *)
Definition null_reply : env :=
  scripted_replies (Ok (py "Hello world")) (Ok (py "en")) (Ok PyNone) (Ok PyNone)
                   (Ok tt).

(** Speech recognition fails. *)
Definition whisper_down : env :=
  scripted (Raise (py "Connection error.")) (Ok (py "en")) (Ok hello_ur) (Ok hello_ur)
           (Ok tt).

(** Speech synthesis fails with the message "boo". *)
Definition tts_down (whisper : str) : env :=
  scripted (Ok whisper) (Ok (py "en")) (Ok hello_ur) (Ok hello_ur) (Raise (py "boo")).

(** A silent clip: a blank transcript, on which the detector fails. *)
Definition silence : env :=
  scripted (Ok (py "  ")) (Raise (py "No features in text.")) (Ok hello_ur)
           (Ok hello_ur) (Ok tt).

(** The traces of a run in a scripted world that starts from the empty
    trace with an empty upload. *)
Definition wav_path : str := py "/tmp/tmpk3x9.wav".

Definition trace_to_transcriber : trace :=
  [EvTempFile (py ".wav"); EvWrite wav_path []; EvEnter Transcriber; EvOpen wav_path;
   EvTranscribe (py "whisper-large-v3") []].

Definition trace_to_detector (transcribed : str) : trace :=
  trace_to_transcriber ++ [EvEnter Detector; EvDetect transcribed].

Definition mp3_path : str := py "/tmp/tmpk3x9.mp3".

(** ... when the translation is skipped and [text] goes to the Synthesizer. *)
Definition trace_to_synthesizer (text lang : str) : trace :=
  trace_to_detector text ++
  [EvEnter Synthesizer; EvNewTTS text lang; EvTempFile (py ".mp3");
   EvSave text lang mp3_path].

(** A blank text: a space, a tab and a no-break space. *)
Definition blank : str := [32; 9; 160].

End Script.
Export Script.

(** ** Observing a run *)

Module Observe.

(** The components a stretch of trace enters, in order. *)
Definition components_entered (d : trace) : list component :=
  flat_map (fun ev => match ev with EvEnter c => [c] | _ => [] end) d.

(** The language code a call carries as its target: the [target] of the
    translator, the [lang] of the speech synthesis. *)
Definition target_language (ev : event) : option str :=
  match ev with
  | EvNewTranslator _ target => Some target
  | EvTranslate _ target _ => Some target
  | EvNewTTS _ lang => Some lang
  | EvSave _ lang _ => Some lang
  | _ => None
  end.

Definition is_transcribe (ev : event) : bool :=
  match ev with EvTranscribe _ _ => true | _ => false end.

Definition is_detect (ev : event) : bool :=
  match ev with EvDetect _ => true | _ => false end.

Definition is_save (ev : event) : bool :=
  match ev with EvSave _ _ _ => true | _ => false end.

Definition is_tempfile (ev : event) : bool :=
  match ev with EvTempFile _ => true | _ => false end.

(** How many events of a kind a stretch of trace holds. *)
Definition count (kind : event -> bool) (d : trace) : nat := length (filter kind d).

(** Opening the file or the remote speech recognition raises [e] in the
    call [transcribe_audio audio_path] made at trace [h]. *)
Definition transcriber_raises (sv : env) (audio_path : str) (h : trace) (e : str)
  : Prop :=
  open_rb sv (h ++ [EvEnter Transcriber]) audio_path = Raise e \/
  exists f,
    open_rb sv (h ++ [EvEnter Transcriber]) audio_path = Ok f /\
    transcriptions_create sv (h ++ [EvEnter Transcriber; EvOpen audio_path])
      (py "whisper-large-v3") f = Raise e.

(** Something in the [try] block of [translate_text text dest_lang], made
    at trace [h], raises [e]: building the translator, the first remote call,
    the comparison of line 53 on a first reply that is [None], or the
    retry. *)
Definition translator_raises (sv : env) (text dest_lang : str) (h : trace) (e : str)
  : Prop :=
  let new := EvNewTranslator (py "auto") dest_lang in
  let req := EvTranslate (py "auto") dest_lang text in
  translator_new sv (h ++ [EvEnter Translator]) (py "auto") dest_lang = Raise e \/
  exists u,
    translator_new sv (h ++ [EvEnter Translator]) (py "auto") dest_lang = Ok u /\
    (translator_translate sv (h ++ [EvEnter Translator; new]) (py "auto") dest_lang text
       = Raise e \/
     (translator_translate sv (h ++ [EvEnter Translator; new]) (py "auto") dest_lang
        text = Ok PyNone /\
      e = py "'NoneType' object has no attribute 'strip'") \/
     exists t1,
       translator_translate sv (h ++ [EvEnter Translator; new]) (py "auto") dest_lang
         text = Ok (PyString t1) /\
       str_eqb (str_lower sv (strip t1)) (str_lower sv (strip text)) = true /\
       translator_translate sv (h ++ [EvEnter Translator; new; req; EvSleep 1])
         (py "auto") dest_lang text = Raise e).

(** One of the three calls in the [try] block of [text_to_speech text lang],
    made at trace [h], raises [e]: building the speech, making the temporary
    file, or saving. *)
Definition synthesizer_raises (sv : env) (text lang : str) (h : trace) (e : str)
  : Prop :=
  let new := EvNewTTS text lang in
  let tmp := EvTempFile (py ".mp3") in
  gtts_new sv (h ++ [EvEnter Synthesizer]) text lang = Raise e \/
  exists u,
    gtts_new sv (h ++ [EvEnter Synthesizer]) text lang = Ok u /\
    (temp_create sv (h ++ [EvEnter Synthesizer; new]) (py ".mp3") = Raise e \/
     exists name,
       temp_create sv (h ++ [EvEnter Synthesizer; new]) (py ".mp3") = Ok name /\
       gtts_save sv (h ++ [EvEnter Synthesizer; new; tmp]) text lang name = Raise e).

(** The comparison of line 53. *)
Definition same_after_trim_and_lower (sv : env) (a b : str) : Prop :=
  str_lower sv (strip a) = str_lower sv (strip b).

(** The two ways an exception leaves a run started at [h] with the upload
    [data], as [e] at trace [h']: making or writing the temporary copy
    raises, before any component is entered; or the retry of the Translator
    replies [None], which comes back unchecked from line 56 and on which
    line 95 raises, after Transcriber, Detector and Translator ran. *)
Definition raised_by_copy (sv : env) (data : bytes) (h : trace) (e : str)
    (h' : trace) : Prop :=
  components_entered (since h h') = [] /\
  (temp_create sv h (py ".wav") = Raise e \/
   exists tmp_path,
     temp_create sv h (py ".wav") = Ok tmp_path /\
     temp_write sv (h ++ [EvTempFile (py ".wav")]) tmp_path data = Raise e).

Definition raised_by_null_retry (sv : env) (h : trace) (e : str) (h' : trace)
  : Prop :=
  e = py "'NoneType' object has no attribute 'startswith'" /\
  components_entered (since h h') = [Transcriber; Detector; Translator] /\
  exists pre dest_lang text,
    since h h' = pre ++ [EvTranslate (py "auto") dest_lang text; EvSleep 1;
                         EvTranslate (py "auto") dest_lang text] /\
    translator_translate sv
      (h ++ pre ++ [EvTranslate (py "auto") dest_lang text; EvSleep 1])
      (py "auto") dest_lang text = Ok PyNone.

(** The run gets past the first gate and gets [None] from lines 91-93. *)
Definition translates_null (sv : env) (data : bytes) (hint : str) (h : trace)
    (transcribed detected : str) (h4 : trace) : Prop :=
  exists h3,
    detects sv data h transcribed detected h3 /\
    translate_stage sv transcribed detected (resolve_target hint detected) h3
      = (Ok PyNone, h4).

(** The stretches of trace a call of a component can leave. *)
Definition transcriber_trace (audio_path : str) (d : trace) : Prop :=
  d = [EvEnter Transcriber; EvOpen audio_path] \/
  exists f, d = [EvEnter Transcriber; EvOpen audio_path;
                 EvTranscribe (py "whisper-large-v3") f].

Definition translator_trace (dest_lang text : str) (d : trace) : Prop :=
  let new := EvNewTranslator (py "auto") dest_lang in
  let req := EvTranslate (py "auto") dest_lang text in
  d = [EvEnter Translator] \/ d = [EvEnter Translator; new] \/
  d = [EvEnter Translator; new; req] \/
  d = [EvEnter Translator; new; req; EvSleep 1; req].

Definition synthesizer_trace (text lang : str) (d : trace) : Prop :=
  let new := EvNewTTS text lang in
  let tmp := EvTempFile (py ".mp3") in
  d = [EvEnter Synthesizer; new] \/ d = [EvEnter Synthesizer; new; tmp] \/
  exists name, d = [EvEnter Synthesizer; new; tmp; EvSave text lang name].

(** The events of a returning run with an upload, after the run started at
    [h]: the temporary copy and the Transcriber, then, past the first gate,
    the Detector, the Translator unless the target is the detected language,
    and, past the second gate, the Synthesizer. *)
Definition run_trace (data : bytes) (hint : str) (r : result) (d : trace) : Prop :=
  exists tmp_path dT,
    transcriber_trace tmp_path dT /\
    let copy := [EvTempFile (py ".wav"); EvWrite tmp_path data] in
    ((exists t, r = (PyString t, PyNone, PyNone, PyNone) /\ d = copy ++ dT) \/
     (exists t c tl a dX dS,
        r = (PyString t, PyString c, PyString tl, a) /\
        d = copy ++ dT ++ [EvEnter Detector; EvDetect t] ++ dX ++ dS /\
        ((resolve_target hint c = c /\ dX = [] /\ tl = t) \/
         (resolve_target hint c <> c /\ translator_trace (resolve_target hint c) t dX)) /\
        ((dS = [] /\ a = PyNone) \/
         synthesizer_trace tl (resolve_target hint c) dS))).

(** How far a run with an upload got when it returned: to the first gate,
    to the second, to the third, or to the last line. *)
Inductive run_end (sv : env) (data : bytes) (hint : str) (h : trace)
  : result -> trace -> Prop :=
| EndTranscription t h2 :
    transcribes sv data h t h2 ->
    startswith t (py "[Transcription error]") = true ->
    run_end sv data hint h (PyString t, PyNone, PyNone, PyNone) h2
| EndTranslation t c tl h4 :
    translates sv data hint h t c tl h4 ->
    startswith tl (py "[Translation error]") = true ->
    run_end sv data hint h (PyString t, PyString c, PyString tl, PyNone) h4
| EndSynthesis t c tl out h5 :
    synthesizes sv data hint h t c tl out h5 ->
    startswith out (py "[TTS error]") = true ->
    run_end sv data hint h (PyString t, PyString c, PyString tl, PyNone) h5
| EndSuccess t c tl out h5 :
    synthesizes sv data hint h t c tl out h5 ->
    startswith out (py "[TTS error]") = false ->
    run_end sv data hint h (PyString t, PyString c, PyString tl, PyString out) h5.

End Observe.
Export Observe.

(** ** The page: the top-level script of [app.py] *)

Module Page.

(** [sub in s]. *)
Fixpoint str_contains (s sub : str) : bool :=
  startswith s sub ||
  match s with
  | [] => false
  | _ :: s' => str_contains s' sub
  end.

(** Truthiness of a value: [None] and the empty string are falsy. *)
Definition truthy (v : pyval) : bool :=
  match v with
  | PyNone => false
  | PyString s => negb (py_not s)
  end.

(** What the script puts on the page, call by call. *)
Inductive widget : Type :=
| StSetPageConfig (page_title layout : str)
| StTitle (body : str)
| StMarkdown (body : str)
| StFileUploader (label : str) (type : list str)
| StSelectbox (label : str) (options : list str) (index : N)
| StButton (label : str)
| StSpinner (text : str)
| StError (body : str)
| StSuccess (body : str)
| StSubheader (body : str)
| StText (body : pyval)
| StAudio (data : bytes) (format : str)
| StWarning (body : str)
| StCaption (body : str).

(** How a run of the script ends: at its last line, at [st.stop()], or with
    an exception nobody catches. *)
Inductive ending : Type :=
| Finished
| Stopped
| Crashed (msg : str).

(** What one run of the script gets from outside: the environment variable,
    the values of the three controls, and [os.path.exists]. *)
Record session : Type := {
  api_key : option str;
  uploaded : option bytes;
  selected : str;
  clicked : bool;
  path_exists : trace -> str -> bool
}.

(** The options of the select box (line 115). *)
Definition target_options : list str :=
  [py "auto"; py "en"; py "ur"; py "fr"; py "es"; py "de"; py "ar"].

(** The texts of the page. *)
Definition missing_key_message : str :=
  10060 :: py " GROQ_API_KEY not found! Please add it in Streamlit Secrets or Environment Variables.".

Definition page_title : str := 127897 :: py " AI Voice Translator".

(** Lines 108-117 and line 119: the controls, drawn on every run. *)
Definition header : list widget :=
  [StSetPageConfig page_title (py "centered");
   StTitle page_title;
   StMarkdown (py "Speak in any language " ++ [8212] ++
               py " it will transcribe, translate, and speak it back!");
   StFileUploader (127908 :: py " Upload or Record Your Speech (WAV/MP3)")
                  [py "wav"; py "mp3"];
   StSelectbox (127760 :: py " Target Language (auto detects and switches)")
               target_options 0;
   StButton (128640 :: py " Translate & Speak")].

(** Lines 144-145. *)
Definition footer : list widget :=
  [StMarkdown (py "---");
   StCaption (py "Built with " ++ [10084; 65039] ++
              py " using Groq + Streamlit + gTTS + Deep Translator")].

(** Lines 126-134: the three text sections of a result. *)
Definition sections (transcribed detected translated : pyval) : list widget :=
  [StSuccess (9989 :: py " Translation Complete!");
   StSubheader (128221 :: py " Transcribed Text"); StText transcribed;
   StSubheader (127757 :: py " Detected Language"); StText detected;
   StSubheader (128172 :: py " Translated Text"); StText translated].

(** Lines 123-141: showing the tuple the orchestrator returned.  The test of
    line 123 needs a string; on [None] Python raises a [TypeError]. *)
Definition show_result (sv : env) (exists_ : trace -> str -> bool) (r : result)
    (h : trace) : list widget * ending * trace :=
  let '(transcribed, detected, translated, audio_output) := r in
  match transcribed with
  | PyNone => ([], Crashed (py "argument of type 'NoneType' is not iterable"), h)
  | PyString t =>
      if str_contains t (py "[Error]") || startswith t (py "[Transcription error]")
      then ([StError t], Finished, h)
      else
        let shown := sections transcribed detected translated in
        match audio_output with
        | PyString path =>
            if truthy audio_output && exists_ h path
            then
              let shown := shown ++ [StSubheader (128266 :: py " Translated Speech Output")] in
              match open_rb sv h path with
              | Ok data =>
                  (shown ++ [StAudio data (py "audio/mp3")], Finished, h ++ [EvOpen path])
              | Raise e => (shown, Crashed e, h ++ [EvOpen path])
              end
            else (shown ++ [StWarning (py "No audio output generated.")], Finished, h)
        | PyNone => (shown ++ [StWarning (py "No audio output generated.")], Finished, h)
        end
  end.

(** The script, top to bottom (lines 13-18 and 108-145).  Building the
    client (line 18) makes no call; the function definitions in between draw
    nothing. *)
Definition app_script (sv : env) (s : session) (h : trace)
  : list widget * ending * trace :=
  if match api_key s with None => true | Some key => py_not key end
  then ([StError missing_key_message], Stopped, h)
  else
    if clicked s
    then
      let drawn := header ++ [StSpinner (py "Processing your voice...")] in
      match pipeline_translate sv (uploaded s) (selected s) h with
      | (Raise e, h') => (drawn, Crashed e, h')
      | (Ok r, h') =>
          match show_result sv (path_exists s) r h' with
          | (body, Finished, h'') => (drawn ++ body ++ footer, Finished, h'')
          | (body, stop, h'') => (drawn ++ body, stop, h'')
          end
      end
    else (header ++ footer, Finished, h).

End Page.
Export Page.

(** ** Sessions, for running the page on examples *)

Module Scenes.

(** A visitor with a configured key, on a machine where every path exists. *)
Definition visitor (file : option bytes) (lang : str) (click : bool) : session :=
  {| api_key := Some (py "gsk_example");
     uploaded := file;
     selected := lang;
     clicked := click;
     path_exists := fun _ _ => true |}.

(** A deployment without the key, or with an empty one. *)
Definition keyless (key : option str) : session :=
  {| api_key := key;
     uploaded := Some [];
     selected := py "auto";
     clicked := true;
     path_exists := fun _ _ => true |}.

(** The speaker dictates a log line; everything else works. *)
Definition dictation : env :=
  scripted (Ok (py "it printed [Error] twice")) (Ok (py "en")) (Ok hello_ur)
           (Ok hello_ur) (Ok tt).

(** The temporary directory is full: no temporary file can be made. *)
Definition disk_full : env :=
  {| str_lower := ascii_lower;
     temp_create := fun _ _ => Raise (py "No space left on device");
     temp_write := fun _ _ _ => Ok tt;
     open_rb := fun _ _ => Ok [];
     transcriptions_create := fun _ _ _ => Ok (py "Hello world");
     langdetect_detect := fun _ _ => Ok (py "en");
     translator_new := fun _ _ _ => Ok tt;
     translator_translate := fun _ _ _ _ => Ok (PyString hello_ur);
     gtts_new := fun _ _ _ => Ok tt;
     gtts_save := fun _ _ _ _ => Ok tt |}.

(** The trace of the happy run with hint "auto", up to the Synthesizer. *)
Definition trace_to_translator : trace :=
  trace_to_detector (py "Hello world") ++
  [EvEnter Translator; EvNewTranslator (py "auto") (py "ur");
   EvTranslate (py "auto") (py "ur") (py "Hello world")].

Definition happy_trace : trace :=
  trace_to_translator ++
  [EvEnter Synthesizer; EvNewTTS hello_ur (py "ur"); EvTempFile (py ".mp3");
   EvSave hello_ur (py "ur") mp3_path].

End Scenes.
Export Scenes.

(** ** Proof tools *)

(** [run] unfolds the plumbing of a computation, [flat] brings the traces
    to the form [h ++ [ev1; ...; evn]]. *)
Ltac run := unfold bind, call, mark, ret, try_except; simpl.
Ltac flat := repeat rewrite <- app_assoc; simpl.

(** [assoc] proves that two traces are the same list. *)
Ltac assoc := repeat first [rewrite <- app_assoc | progress simpl]; try reflexivity.

(** [shape] closes a goal that asks which trace a finished call left. *)
Ltac shape := do 2 eexists; split; [reflexivity|]; eauto 10.

(** *** Facts about strings *)

Section StrFacts.

Lemma str_eqb_eq (a b : str) : str_eqb a b = true <-> a = b.
Proof.
  revert b; induction a as [|x a IH]; intros [|y b]; simpl; split; intro H;
    try reflexivity; try discriminate.
  - apply andb_true_iff in H as [Hx Ha].
    apply N.eqb_eq in Hx. apply IH in Ha. now subst.
  - injection H as -> ->. rewrite N.eqb_refl. simpl. now apply IH.
Qed.

Lemma str_eqb_refl (a : str) : str_eqb a a = true.
Proof. now apply str_eqb_eq. Qed.

Lemma str_eqb_neq (a b : str) : str_eqb a b = false <-> a <> b.
Proof.
  split.
  - intros H E. apply str_eqb_eq in E. congruence.
  - intros H. destruct (str_eqb a b) eqn:E; [|reflexivity].
    apply str_eqb_eq in E. contradiction.
Qed.

Lemma startswith_app (p s : str) : startswith (p ++ s) p = true.
Proof. induction p as [|c p IH]; simpl; [reflexivity|]. now rewrite N.eqb_refl. Qed.

Lemma startswith_prefix (s p : str) :
  startswith s p = true <-> exists r, s = p ++ r.
Proof.
  split.
  - revert s; induction p as [|y p IH]; intros s H; simpl in *.
    + now exists s.
    + destruct s as [|x s]; [discriminate|].
      apply andb_true_iff in H as [Hx Hs]. apply N.eqb_eq in Hx. subst y.
      destruct (IH _ Hs) as [r ->]. now exists r.
  - intros [r ->]. apply startswith_app.
Qed.

Lemma lstrip_nil_iff (s : str) : lstrip s = [] <-> whitespace_only s = true.
Proof.
  induction s as [|c s IH]; simpl; [tauto|].
  destruct (isspace c); simpl; [exact IH|].
  split; discriminate.
Qed.

Lemma lstrip_split (s : str) :
  exists l, s = l ++ lstrip s /\ whitespace_only l = true.
Proof.
  induction s as [|c s [l [E W]]]; simpl.
  - now exists [].
  - destruct (isspace c) eqn:Hc.
    + exists (c :: l). simpl. rewrite Hc, W. split; [now f_equal|reflexivity].
    + now exists [].
Qed.

Lemma lstrip_head (s : str) c s' : lstrip s = c :: s' -> isspace c = false.
Proof.
  induction s as [|d s IH]; simpl; [discriminate|].
  destruct (isspace d) eqn:Hd; [exact IH|].
  intros E. injection E as -> _. exact Hd.
Qed.

Lemma whitespace_only_app (a b : str) :
  whitespace_only (a ++ b) = whitespace_only a && whitespace_only b.
Proof. apply forallb_app. Qed.

Lemma whitespace_only_rev (a : str) : whitespace_only (rev a) = whitespace_only a.
Proof.
  induction a as [|c a IH]; simpl; [reflexivity|].
  rewrite whitespace_only_app, IH. simpl. rewrite andb_true_r. apply andb_comm.
Qed.

Lemma rstrip_split (s : str) :
  exists r, s = rstrip s ++ r /\ whitespace_only r = true.
Proof.
  unfold rstrip. destruct (lstrip_split (rev s)) as [l [E W]].
  exists (rev l). split.
  - rewrite <- rev_app_distr, <- E. symmetry. apply rev_involutive.
  - now rewrite whitespace_only_rev.
Qed.

Lemma rstrip_last (s : str) c s' : rstrip s = s' ++ [c] -> isspace c = false.
Proof.
  unfold rstrip. intros E. apply (f_equal (@rev char)) in E.
  rewrite rev_involutive, rev_app_distr in E. simpl in E.
  exact (lstrip_head _ _ _ E).
Qed.

(** Removing trailing whitespace leaves the first character in place. *)
Lemma lstrip_app_nonspace (a b : str) :
  whitespace_only a = false -> lstrip (a ++ b) = lstrip a ++ b.
Proof.
  induction a as [|c a IH]; simpl; [discriminate|].
  destruct (isspace c); simpl; [exact IH|reflexivity].
Qed.

Lemma rstrip_head (s : str) c s' :
  isspace c = false -> s = c :: s' -> exists t, rstrip s = c :: t.
Proof.
  intros Hc ->. unfold rstrip. simpl rev.
  destruct (whitespace_only (rev s')) eqn:W.
  - assert (E : lstrip (rev s' ++ [c]) = [c]).
    { clear -W Hc. induction (rev s') as [|d l IH]; simpl in *.
      - now rewrite Hc.
      - apply andb_true_iff in W as [Hd W]. rewrite Hd. now apply IH. }
    rewrite E. now exists [].
  - rewrite lstrip_app_nonspace by exact W.
    rewrite rev_app_distr. simpl. now eexists.
Qed.

Lemma strip_nil_iff (s : str) : strip s = [] <-> whitespace_only s = true.
Proof.
  unfold strip. split.
  - intros H. destruct (lstrip s) as [|c t] eqn:E.
    + now apply lstrip_nil_iff.
    + pose proof (lstrip_head _ _ _ E) as Hc.
      destruct (rstrip_head (c :: t) c t Hc eq_refl) as [u Hu].
      rewrite Hu in H. discriminate.
  - intros H. apply lstrip_nil_iff in H. now rewrite H.
Qed.

(** [strip] returns the input with its outer whitespace removed. *)
Lemma strip_trimmed (s : str) : trimmed_of s (strip s).
Proof.
  destruct (lstrip_split s) as [l [El Wl]].
  destruct (rstrip_split (lstrip s)) as [r [Er Wr]].
  exists l, r. unfold strip. repeat split; try assumption.
  - now rewrite <- Er.
  - intros c s' E. destruct (lstrip s) as [|d t] eqn:Et.
    + discriminate.
    + pose proof (lstrip_head _ _ _ Et) as Hd.
      destruct (rstrip_head (d :: t) d t Hd eq_refl) as [u Hu].
      rewrite Hu in E. injection E as <- _. exact Hd.
  - intros c s' E. exact (rstrip_last _ _ _ E).
Qed.

(** The trimmed middle part is unique: [trimmed_of] determines [strip]. *)
Lemma lstrip_space_app (l t : str) :
  whitespace_only l = true -> lstrip (l ++ t) = lstrip t.
Proof.
  induction l as [|c l IH]; simpl; [reflexivity|].
  intros H. apply andb_true_iff in H as [Hc Hl]. rewrite Hc. now apply IH.
Qed.

Lemma lstrip_id (t : str) :
  (forall c s', t = c :: s' -> isspace c = false) -> lstrip t = t.
Proof.
  destruct t as [|c t]; simpl; [reflexivity|].
  intros H. now rewrite (H c t eq_refl).
Qed.

Lemma trimmed_of_unique (s t : str) : trimmed_of s t -> t = strip s.
Proof.
  intros [l [r [-> [Wl [Wr [Hh Hl]]]]]].
  unfold strip. rewrite lstrip_space_app by exact Wl.
  destruct t as [|c t].
  - simpl. symmetry. apply lstrip_nil_iff in Wr.
    unfold rstrip. rewrite Wr. reflexivity.
  - rewrite lstrip_id by (intros d s' E; injection E as <- <-; apply (Hh c t eq_refl)).
    unfold rstrip. rewrite rev_app_distr.
    rewrite lstrip_space_app by now rewrite whitespace_only_rev.
    rewrite lstrip_id; [now rewrite rev_involutive|].
    intros d s' E.
    apply (f_equal (@rev char)) in E. rewrite rev_involutive in E. simpl in E.
    apply (Hl d (rev s')). exact E.
Qed.

End StrFacts.

(** ** The components, call by call *)

Section Components.

Variable sv : env.

Lemma transcribe_audio_eq (audio_path : str) (h : trace) :
  transcribe_audio sv audio_path h =
  match open_rb sv (h ++ [EvEnter Transcriber]) audio_path with
  | Raise e =>
      (Ok (py "[Transcription error] " ++ e), h ++ [EvEnter Transcriber; EvOpen audio_path])
  | Ok f =>
      let h' := h ++ [EvEnter Transcriber; EvOpen audio_path;
                      EvTranscribe (py "whisper-large-v3") f] in
      match transcriptions_create sv (h ++ [EvEnter Transcriber; EvOpen audio_path])
              (py "whisper-large-v3") f with
      | Raise e => (Ok (py "[Transcription error] " ++ e), h')
      | Ok text => (Ok (strip text), h')
      end
  end.
Proof.
  unfold transcribe_audio. run.
  destruct (open_rb sv _ audio_path) as [f|e]; flat; [|reflexivity].
  destruct (transcriptions_create sv _ _ f) as [text|e]; flat; reflexivity.
Qed.

Lemma detect_language_eq (text : str) (h : trace) :
  detect_language sv text h =
  (Ok match langdetect_detect sv (h ++ [EvEnter Detector]) text with
      | Ok code => code
      | Raise _ => py "unknown"
      end,
   h ++ [EvEnter Detector; EvDetect text]).
Proof.
  unfold detect_language. run.
  destruct (langdetect_detect sv _ text); flat; reflexivity.
Qed.

Lemma translate_text_eq (text dest_lang : str) (h : trace) :
  translate_text sv text dest_lang h =
  let new := EvNewTranslator (py "auto") dest_lang in
  let req := EvTranslate (py "auto") dest_lang text in
  if py_not (strip text)
  then (Ok (PyString (py "[Translation error] Empty input text")),
        h ++ [EvEnter Translator])
  else
    match translator_new sv (h ++ [EvEnter Translator]) (py "auto") dest_lang with
    | Raise e =>
        (Ok (PyString (py "[Translation error] " ++ e)), h ++ [EvEnter Translator; new])
    | Ok _ =>
        match translator_translate sv (h ++ [EvEnter Translator; new])
                (py "auto") dest_lang text with
        | Raise e =>
            (Ok (PyString (py "[Translation error] " ++ e)),
             h ++ [EvEnter Translator; new; req])
        | Ok PyNone =>
            (Ok (PyString (py "[Translation error] " ++
                           py "'NoneType' object has no attribute 'strip'")),
             h ++ [EvEnter Translator; new; req])
        | Ok (PyString t1) =>
            if str_eqb (str_lower sv (strip t1)) (str_lower sv (strip text))
            then
              (match translator_translate sv
                       (h ++ [EvEnter Translator; new; req; EvSleep 1])
                       (py "auto") dest_lang text with
               | Raise e => Ok (PyString (py "[Translation error] " ++ e))
               | Ok reply => Ok reply
               end,
               h ++ [EvEnter Translator; new; req; EvSleep 1; req])
            else (Ok (PyString t1), h ++ [EvEnter Translator; new; req])
        end
    end.
Proof.
  unfold translate_text. run.
  destruct (py_not (strip text)); [reflexivity|].
  destruct (translator_new sv _ _ dest_lang) as [u|e]; flat; [|reflexivity].
  destruct (translator_translate sv _ _ dest_lang text) as [[|t1]|e]; flat;
    [reflexivity| |reflexivity].
  destruct (str_eqb _ _); flat; [|reflexivity].
  destruct (translator_translate sv _ _ dest_lang text) as [t2|e]; flat; reflexivity.
Qed.

Lemma text_to_speech_eq (text lang : str) (h : trace) :
  text_to_speech sv text lang h =
  let new := EvNewTTS text lang in
  let tmp := EvTempFile (py ".mp3") in
  match gtts_new sv (h ++ [EvEnter Synthesizer]) text lang with
  | Raise e => (Ok (py "[TTS error] " ++ e), h ++ [EvEnter Synthesizer; new])
  | Ok _ =>
      match temp_create sv (h ++ [EvEnter Synthesizer; new]) (py ".mp3") with
      | Raise e => (Ok (py "[TTS error] " ++ e), h ++ [EvEnter Synthesizer; new; tmp])
      | Ok name =>
          (match gtts_save sv (h ++ [EvEnter Synthesizer; new; tmp]) text lang name with
           | Raise e => Ok (py "[TTS error] " ++ e)
           | Ok _ => Ok name
           end,
           h ++ [EvEnter Synthesizer; new; tmp; EvSave text lang name])
      end
  end.
Proof.
  unfold text_to_speech. run.
  destruct (gtts_new sv _ text lang) as [u|e]; flat; [|reflexivity].
  destruct (temp_create sv _ _) as [name|e]; flat; [|reflexivity].
  destruct (gtts_save sv _ text lang name) as [u'|e]; flat; reflexivity.
Qed.

(** No component lets an exception out, each only appends to the trace, and
    only the Translator leaves Translator events. *)
Lemma transcribe_audio_total (audio_path : str) (h : trace) :
  exists t d, transcribe_audio sv audio_path h = (Ok t, h ++ d) /\
              translator_free d = true.
Proof.
  rewrite transcribe_audio_eq.
  destruct (open_rb sv _ audio_path) as [f|e]; [|now eauto].
  cbv zeta. destruct (transcriptions_create sv _ _ f); now eauto.
Qed.

Lemma detect_language_total (text : str) (h : trace) :
  exists code d, detect_language sv text h = (Ok code, h ++ d) /\
                 translator_free d = true.
Proof. rewrite detect_language_eq. now eauto. Qed.

Lemma translate_text_total (text dest_lang : str) (h : trace) :
  exists t d, translate_text sv text dest_lang h = (Ok t, h ++ d).
Proof.
  rewrite translate_text_eq. cbv zeta.
  destruct (py_not (strip text)); [now eauto|].
  destruct (translator_new sv _ _ dest_lang); [|now eauto].
  destruct (translator_translate sv _ _ dest_lang text) as [[|t1]|e];
    [now eauto| |now eauto].
  destruct (str_eqb _ _); [|now eauto].
  destruct (translator_translate sv _ _ dest_lang text); now eauto.
Qed.

Lemma text_to_speech_total (text lang : str) (h : trace) :
  exists out d, text_to_speech sv text lang h = (Ok out, h ++ d) /\
                translator_free d = true.
Proof.
  rewrite text_to_speech_eq. cbv zeta.
  destruct (gtts_new sv _ text lang); [|now eauto].
  destruct (temp_create sv _ _) as [name|e]; [|now eauto].
  destruct (gtts_save sv _ text lang name); now eauto.
Qed.

End Components.

(** *** Traces *)

Lemma since_app (h d : trace) : since h (h ++ d) = d.
Proof.
  unfold since. induction h as [|ev h IH]; simpl; [reflexivity|exact IH].
Qed.

Lemma since_self (h : trace) : since h h = [].
Proof. rewrite <- (app_nil_r h) at 2. apply since_app. Qed.

Lemma translator_free_app (a b : trace) :
  translator_free (a ++ b) = translator_free a && translator_free b.
Proof. apply forallb_app. Qed.

(** ** The orchestrator, stage by stage *)

Section Orchestrator.

Variable sv : env.
Variable data : bytes.

Lemma pipeline_after_transcriber hint h transcribed h2 :
  transcribes sv data h transcribed h2 ->
  pipeline_translate sv (Some data) hint h =
  (if startswith transcribed (py "[Transcription error]")
   then ret (PyString transcribed, PyNone, PyNone, PyNone)
   else detected <- detect_language sv transcribed ;;
        pipeline_tail sv transcribed detected (resolve_target hint detected)) h2.
Proof.
  intros [tmp_path [Hc [Hw Ht]]].
  unfold pipeline_translate.
  cbv beta iota delta [bind call].
  rewrite Hc. cbv beta iota. rewrite Hw. cbv beta iota. flat.
  rewrite Ht. reflexivity.
Qed.

Lemma pipeline_after_detector hint h transcribed detected h3 :
  detects sv data h transcribed detected h3 ->
  pipeline_translate sv (Some data) hint h =
  pipeline_tail sv transcribed detected (resolve_target hint detected) h3.
Proof.
  intros [h2 [Ht [Hgate Hd]]].
  rewrite (pipeline_after_transcriber hint _ _ _ Ht), Hgate.
  cbv beta iota delta [bind]. rewrite Hd. reflexivity.
Qed.

Lemma pipeline_after_translator hint h transcribed detected translated h4 :
  translates sv data hint h transcribed detected translated h4 ->
  pipeline_translate sv (Some data) hint h =
  (if startswith translated (py "[Translation error]")
   then ret (PyString transcribed, PyString detected, PyString translated, PyNone)
   else
     audio_output <- text_to_speech sv translated (resolve_target hint detected) ;;
     if isinstance_str (PyString audio_output)
        && startswith audio_output (py "[TTS error]")
     then ret (PyString transcribed, PyString detected, PyString translated, PyNone)
     else ret (PyString transcribed, PyString detected, PyString translated,
               PyString audio_output)) h4.
Proof.
  intros [h3 [Hd Hs]].
  rewrite (pipeline_after_detector hint _ _ _ _ Hd).
  unfold pipeline_tail. cbv beta iota delta [bind]. rewrite Hs. reflexivity.
Qed.

Lemma pipeline_after_synthesizer hint h transcribed detected translated audio_output h5 :
  synthesizes sv data hint h transcribed detected translated audio_output h5 ->
  pipeline_translate sv (Some data) hint h =
  (Ok (PyString transcribed, PyString detected, PyString translated,
       if startswith audio_output (py "[TTS error]") then PyNone
       else PyString audio_output), h5).
Proof.
  intros [h4 [Ht [Hgate Hs]]].
  rewrite (pipeline_after_translator _ _ _ _ _ _ Ht), Hgate.
  cbv beta iota delta [bind]. rewrite Hs. cbv beta iota.
  unfold isinstance_str. rewrite andb_true_l.
  destruct (startswith audio_output _); reflexivity.
Qed.

(** The trace up to the Detector holds no Translator event. *)
Lemma detects_trace h transcribed detected h3 :
  detects sv data h transcribed detected h3 ->
  exists d, h3 = h ++ d /\ translator_free d = true.
Proof.
  intros [h2 [[tmp_path [_ [_ Ht]]] [_ Hd]]].
  destruct (transcribe_audio_total sv tmp_path
              (h ++ [EvTempFile (py ".wav"); EvWrite tmp_path data]))
    as [t [d1 [Et F1]]].
  rewrite Et in Ht. injection Ht as _ <-.
  destruct (detect_language_total sv transcribed
              ((h ++ [EvTempFile (py ".wav"); EvWrite tmp_path data]) ++ d1))
    as [c [d2 [Ed F2]]].
  rewrite Ed in Hd. injection Hd as _ <-.
  exists ([EvTempFile (py ".wav"); EvWrite tmp_path data] ++ d1 ++ d2). split.
  - now rewrite !app_assoc.
  - now rewrite !translator_free_app, F1, F2.
Qed.

(** What comes out of lines 91-93 is a value; the part of the pipeline
    after target resolution raises at line 95 when it is [None], and
    otherwise returns at the second gate, at the third gate, or at the last
    line. *)
Lemma translate_stage_total transcribed detected target h :
  exists v h4, translate_stage sv transcribed detected target h = (Ok v, h4).
Proof.
  unfold translate_stage. destruct (negb _).
  - destruct (translate_text_total sv transcribed target h) as [t [d E]]. eauto.
  - unfold ret. eauto.
Qed.

Lemma pipeline_tail_cases transcribed detected target h :
  exists v h4,
    translate_stage sv transcribed detected target h = (Ok v, h4) /\
    match v with
    | PyNone =>
        pipeline_tail sv transcribed detected target h =
        (Raise (py "'NoneType' object has no attribute 'startswith'"), h4)
    | PyString translated =>
        (startswith translated (py "[Translation error]") = true /\
         pipeline_tail sv transcribed detected target h =
         (Ok (PyString transcribed, PyString detected, PyString translated, PyNone),
          h4))
        \/
        (startswith translated (py "[Translation error]") = false /\
         exists audio_output h5,
           text_to_speech sv translated target h4 = (Ok audio_output, h5) /\
           pipeline_tail sv transcribed detected target h =
           (Ok (PyString transcribed, PyString detected, PyString translated,
                if startswith audio_output (py "[TTS error]") then PyNone
                else PyString audio_output), h5))
    end.
Proof.
  destruct (translate_stage_total transcribed detected target h) as [v [h4 Hs]].
  exists v, h4. split; [exact Hs|].
  unfold pipeline_tail. cbv beta iota delta [bind]. rewrite Hs. cbv beta iota.
  destruct v as [|translated]; [reflexivity|].
  cbv beta iota delta [startswith_of].
  destruct (startswith translated _) eqn:Hgate.
  - left. split; reflexivity.
  - right. split; [reflexivity|].
    destruct (text_to_speech_total sv translated target h4) as [out [d [E _]]].
    exists out, (h4 ++ d). split; [exact E|].
    rewrite E. cbv beta iota. unfold isinstance_str. rewrite andb_true_l.
    destruct (startswith out _); reflexivity.
Qed.

End Orchestrator.

(** *** Runs in the scripted worlds *)

Lemma happy_detects :
  detects happy [] [] (py "Hello world") (py "en") (trace_to_detector (py "Hello world")).
Proof.
  exists trace_to_transcriber. split; [|split; reflexivity].
  exists wav_path. repeat split.
Defined.

Lemma whisper_down_transcribes :
  transcribes whisper_down [] [] (py "[Transcription error] Connection error.")
    trace_to_transcriber.
Proof. exists wav_path. repeat split. Defined.

Lemma silence_transcribes : transcribes silence [] [] [] trace_to_transcriber.
Proof. exists wav_path. repeat split. Defined.

(** The end-to-end scenario of the contract: "Hello world", detected "en",
    hint "auto": the remote translation service is called once with target
    "ur" and an audio path is returned. *)
Example happy_path :
  pipeline_translate happy (Some []) (py "auto") [] =
    (Ok (PyString (py "Hello world"), PyString (py "en"), PyString hello_ur,
         PyString mp3_path),
     trace_to_detector (py "Hello world") ++
     [EvEnter Translator; EvNewTranslator (py "auto") (py "ur");
      EvTranslate (py "auto") (py "ur") (py "Hello world");
      EvEnter Synthesizer; EvNewTTS hello_ur (py "ur"); EvTempFile (py ".mp3");
      EvSave hello_ur (py "ur") mp3_path]).
Proof. reflexivity. Qed.

(** An echoing translation service is asked a second time, after a sleep. *)
Example echo_retry :
  translate_text echo (py "Hello world") (py "ur") [] =
    (Ok (PyString hello_ur),
     [EvEnter Translator; EvNewTranslator (py "auto") (py "ur");
      EvTranslate (py "auto") (py "ur") (py "Hello world"); EvSleep 1;
      EvTranslate (py "auto") (py "ur") (py "Hello world")]).
Proof. reflexivity. Qed.

(** A failing translation service: the third gate closes the run. *)
Example translation_failure_run :
  fst (pipeline_translate translate_down (Some []) (py "auto") []) =
    Ok (PyString (py "Hello world"), PyString (py "en"),
        PyString (py "[Translation error] boom"), PyNone).
Proof. reflexivity. Qed.

Example strip_example : strip (blank ++ py "a b" ++ blank) = py "a b".
Proof. reflexivity. Qed.

(** A [None] reply of the retry comes back from the Translator as it is,
    and the orchestrator raises on it at line 95. *)
Example null_retry_returned :
  fst (translate_text echo_then_null (py "Hello world") (py "ur") []) = Ok PyNone.
Proof. reflexivity. Qed.

Example null_retry_run :
  fst (pipeline_translate echo_then_null (Some []) (py "auto") []) =
    Raise (py "'NoneType' object has no attribute 'startswith'").
Proof. reflexivity. Qed.

(** A [None] first reply is caught inside the Translator. *)
Example null_reply_caught :
  fst (translate_text null_reply (py "Hello world") (py "ur") []) =
    Ok (PyString (py "[Translation error] 'NoneType' object has no attribute 'strip'")).
Proof. reflexivity. Qed.

(** ** The pipeline contract *)

(** C7. With no input audio the orchestrator returns at once a tuple whose
    first element is the error message "[Error] No audio input" and whose
    other three elements are null; the run leaves no event (no temporary
    file, no component entered, no call), so no pipeline stage is performed. *)
Theorem no_audio_guard (sv : env) (hint : str) (h : trace) :
  exists r h',
    pipeline_translate sv None hint h = (Ok r, h') /\
    r = (PyString (py "[Error] No audio input"), PyNone, PyNone, PyNone) /\
    since h h' = [].
Proof.
  exists (PyString (py "[Error] No audio input"), PyNone, PyNone, PyNone), h.
  repeat split. apply since_self.
Qed.

(** C5. When the Transcriber's result starts with "[Transcription error]",
    the orchestrator returns that string unmodified as first element and
    null as second, third and fourth elements, right after the Transcriber. *)
Theorem transcription_failure_gate (sv : env) (data : bytes) (hint : str)
    (h : trace) (transcribed : str) (h2 : trace) :
  transcribes sv data h transcribed h2 ->
  startswith transcribed (py "[Transcription error]") = true ->
  pipeline_translate sv (Some data) hint h =
    (Ok (PyString transcribed, PyNone, PyNone, PyNone), h2).
Proof.
  intros Ht Hgate.
  rewrite (pipeline_after_transcriber sv data hint _ _ _ Ht), Hgate.
  reflexivity.
Qed.

Lemma transcription_failure_gate_witness :
  pipeline_translate whisper_down (Some []) (py "auto") [] =
    (Ok (PyString (py "[Transcription error] Connection error."),
         PyNone, PyNone, PyNone), trace_to_transcriber).
Proof.
  apply (transcription_failure_gate whisper_down [] (py "auto") []
           (py "[Transcription error] Connection error.") trace_to_transcriber).
  - exact whisper_down_transcribes.
  - reflexivity.
Defined.

(** C4. For an empty or whitespace-only text the Translator returns the
    sentinel "[Translation error] Empty input text"; the only event of the
    call is its own entry, so no translator is built and the remote
    translation service is not invoked. *)
Theorem empty_input_sentinel (sv : env) (text dest_lang : str) (h : trace) :
  whitespace_only text = true ->
  exists h',
    translate_text sv text dest_lang h =
      (Ok (PyString (py "[Translation error] Empty input text")), h') /\
    since h h' = [EvEnter Translator] /\
    translate_calls (since h h') = 0%nat.
Proof.
  intros Hw. apply strip_nil_iff in Hw.
  exists (h ++ [EvEnter Translator]).
  rewrite translate_text_eq, Hw, since_app. cbv zeta. simpl py_not. cbv iota.
  repeat split.
Qed.

Lemma empty_input_sentinel_witness :
  whitespace_only blank = true /\
  exists h',
    translate_text happy blank (py "ur") [] =
      (Ok (PyString (py "[Translation error] Empty input text")), h') /\
    since [] h' = [EvEnter Translator] /\
    translate_calls (since [] h') = 0%nat.
Proof.
  split; [reflexivity|].
  apply (empty_input_sentinel happy blank (py "ur") []). reflexivity.
Defined.

(** C8. The Transcriber never lets an exception out.  When opening the file
    and the remote call both succeed it returns the transcript with its
    leading and trailing whitespace removed; when either raises, it returns
    "[Transcription error] " followed by the exception's message. *)
Theorem transcriber_contract (sv : env) (audio_path : str) (h : trace) :
  exists r h',
    transcribe_audio sv audio_path h = (Ok r, h') /\
    match open_rb sv (h ++ [EvEnter Transcriber]) audio_path with
    | Raise e => r = py "[Transcription error] " ++ e
    | Ok f =>
        match transcriptions_create sv (h ++ [EvEnter Transcriber; EvOpen audio_path])
                (py "whisper-large-v3") f with
        | Raise e => r = py "[Transcription error] " ++ e
        | Ok text => trimmed_of text r /\ r = strip text
        end
    end.
Proof.
  rewrite transcribe_audio_eq.
  destruct (open_rb sv _ audio_path) as [f|e]; [|now eauto].
  cbv zeta.
  destruct (transcriptions_create sv _ _ f) as [text|e]; [|now eauto].
  do 2 eexists. split; [reflexivity|]. split; [apply strip_trimmed|reflexivity].
Qed.

(** C1. With the hint "auto" the orchestrator goes on, after detection, with
    target "ur" when the detected language is "en" and with target "en" for
    every other detected language, "unknown" included. *)
Theorem auto_target_resolution (sv : env) (data : bytes) (h : trace)
    (transcribed detected : str) (h3 : trace) :
  detects sv data h transcribed detected h3 ->
  exists target,
    resolve_target (py "auto") detected = target /\
    pipeline_translate sv (Some data) (py "auto") h =
      pipeline_tail sv transcribed detected target h3 /\
    (detected = py "en" -> target = py "ur") /\
    (detected <> py "en" -> target = py "en") /\
    (detected = py "unknown" -> target = py "en").
Proof.
  intros Hd. exists (resolve_target (py "auto") detected).
  split; [reflexivity|]. split; [exact (pipeline_after_detector sv data _ _ _ _ _ Hd)|].
  unfold resolve_target. rewrite str_eqb_refl.
  repeat split.
  - intros ->. reflexivity.
  - intros Hne. apply str_eqb_neq in Hne. now rewrite Hne.
  - intros ->. reflexivity.
Qed.

Lemma auto_target_resolution_witness :
  exists target,
    resolve_target (py "auto") (py "en") = target /\
    pipeline_translate happy (Some []) (py "auto") [] =
      pipeline_tail happy (py "Hello world") (py "en") target
        (trace_to_detector (py "Hello world")) /\
    (py "en" = py "en" -> target = py "ur") /\
    (py "en" <> py "en" -> target = py "en") /\
    (py "en" = py "unknown" -> target = py "en").
Proof.
  apply (auto_target_resolution happy [] [] (py "Hello world") (py "en")
           (trace_to_detector (py "Hello world"))).
  exact happy_detects.
Defined.

(** C3. When the resolved target equals the detected language, the run
    holds no Translator event (the Translator is not entered, no translator
    is built, the remote service is not called, nothing sleeps) and the
    translated-text field is the transcript. *)
Theorem translation_skip (sv : env) (data : bytes) (hint : str) (h : trace)
    (transcribed detected : str) (h3 : trace) :
  detects sv data h transcribed detected h3 ->
  resolve_target hint detected = detected ->
  exists r h',
    pipeline_translate sv (Some data) hint h = (Ok r, h') /\
    translator_free (since h h') = true /\
    entered Translator (since h h') = false /\
    translatedText r = PyString transcribed.
Proof.
  intros Hd Hres.
  rewrite (pipeline_after_detector sv data _ _ _ _ _ Hd), Hres.
  destruct (detects_trace sv data _ _ _ _ Hd) as [d [-> Fd]].
  unfold pipeline_tail, translate_stage. rewrite str_eqb_refl.
  cbv beta iota delta [bind ret negb startswith_of].
  assert (Hent : forall t, translator_free t = true -> entered Translator t = false).
  { induction t as [|ev t IH]; simpl; [reflexivity|].
    intros H. apply andb_true_iff in H as [Hev Ht]. rewrite (IH Ht).
    destruct ev as [[]| | | | | | | | | |]; simpl in *; try reflexivity; discriminate. }
  destruct (startswith transcribed _).
  - do 2 eexists. split; [reflexivity|]. rewrite since_app. auto.
  - destruct (text_to_speech_total sv transcribed detected (h ++ d)) as [out [d' [E F]]].
    rewrite E. cbv beta iota.
    assert (Fa : translator_free (d ++ d') = true).
    { now rewrite translator_free_app, Fd, F. }
    destruct (isinstance_str _ && _); do 2 eexists;
      (split; [reflexivity|]); rewrite <- app_assoc, since_app; auto.
Qed.

Lemma translation_skip_witness :
  exists r h',
    pipeline_translate happy (Some []) (py "en") [] = (Ok r, h') /\
    translator_free (since [] h') = true /\
    entered Translator (since [] h') = false /\
    translatedText r = PyString (py "Hello world").
Proof.
  apply (translation_skip happy [] (py "en") [] (py "Hello world") (py "en")
           (trace_to_detector (py "Hello world"))).
  - exact happy_detects.
  - reflexivity.
Defined.

(** C9. Whenever the fourth element of the returned tuple is not null, the
    first element does not start with "[Transcription error]", the third
    does not start with "[Translation error]" and the fourth does not start
    with "[TTS error]". *)
Theorem audio_path_invariant (sv : env) (audio_file : option bytes) (hint : str)
    (h : trace) (r : result) (h' : trace) :
  pipeline_translate sv audio_file hint h = (Ok r, h') ->
  audioOutputPath r <> PyNone ->
  pv_startswith (transcribedText r) (py "[Transcription error]") = false /\
  pv_startswith (translatedText r) (py "[Translation error]") = false /\
  pv_startswith (audioOutputPath r) (py "[TTS error]") = false.
Proof.
  intros Hrun Hpath.
  destruct audio_file as [data|].
  2:{ injection Hrun as <- _. exfalso; apply Hpath; reflexivity. }
  unfold pipeline_translate in Hrun. cbv beta iota delta [bind call] in Hrun.
  destruct (temp_create sv h _) as [tmp_path|e]; [|discriminate].
  destruct (temp_write sv _ tmp_path data) as [u|e]; [|discriminate].
  destruct (transcribe_audio_total sv tmp_path
              ((h ++ [EvTempFile (py ".wav")]) ++ [EvWrite tmp_path data]))
    as [t [d1 [Et _]]].
  rewrite Et in Hrun.
  destruct (startswith t (py "[Transcription error]")) eqn:G1.
  { injection Hrun as <- _. exfalso; apply Hpath; reflexivity. }
  destruct (detect_language_total sv t
              (((h ++ [EvTempFile (py ".wav")]) ++ [EvWrite tmp_path data]) ++ d1))
    as [c [d2 [Ed _]]].
  rewrite Ed in Hrun.
  destruct (pipeline_tail_cases sv t c (resolve_target hint c)
              ((((h ++ [EvTempFile (py ".wav")]) ++ [EvWrite tmp_path data]) ++ d1) ++ d2))
    as [[|tl] [h4 [_ E]]]; [rewrite E in Hrun; discriminate Hrun|].
  destruct E as [[G2 E]|[G2 [out [h5 [_ E]]]]]; rewrite E in Hrun.
  - injection Hrun as <- _. exfalso; apply Hpath; reflexivity.
  - destruct (startswith out (py "[TTS error]")) eqn:G3; injection Hrun as <- _.
    + exfalso; apply Hpath; reflexivity.
    + unfold transcribedText, translatedText, audioOutputPath, pv_startswith. auto.
Qed.

Lemma audio_path_invariant_witness :
  pv_startswith (PyString (py "Hello world")) (py "[Transcription error]") = false /\
  pv_startswith (PyString hello_ur) (py "[Translation error]") = false /\
  pv_startswith (PyString (py "/tmp/tmpk3x9.mp3")) (py "[TTS error]") = false.
Proof.
  apply (audio_path_invariant happy (Some []) (py "auto") []
           (PyString (py "Hello world"), PyString (py "en"), PyString hello_ur,
            PyString (py "/tmp/tmpk3x9.mp3"))
           (snd (pipeline_translate happy (Some []) (py "auto") []))).
  - reflexivity.
  - discriminate.
Defined.

(** C10. When the Transcriber returns a whitespace-only transcript (which is
    then the empty string), the hint is "auto" and the language detector
    fails on that transcript, the orchestrator returns detected language
    "unknown", translated text "[Translation error] Empty input text" and a
    null audio path; after detection the Translator is entered and returns
    at once, and the Synthesizer is not entered. *)
Theorem blank_transcript (sv : env) (data : bytes) (h : trace)
    (transcribed : str) (h2 : trace) (e : str) :
  transcribes sv data h transcribed h2 ->
  whitespace_only transcribed = true ->
  langdetect_detect sv (h2 ++ [EvEnter Detector]) transcribed = Raise e ->
  transcribed = [] /\
  exists h',
    pipeline_translate sv (Some data) (py "auto") h =
      (Ok (PyString transcribed, PyString (py "unknown"),
           PyString (py "[Translation error] Empty input text"), PyNone), h') /\
    since h2 h' = [EvEnter Detector; EvDetect transcribed; EvEnter Translator] /\
    entered Synthesizer (since h2 h') = false.
Proof.
  intros Ht Hw Hdet.
  assert (Hnil : transcribed = []).
  { destruct transcribed as [|c t]; [reflexivity|]. exfalso.
    destruct Ht as [tmp_path [_ [_ Ht]]].
    rewrite transcribe_audio_eq in Ht. cbv zeta in Ht.
    destruct (open_rb sv _ tmp_path) as [f|e1].
    2:{ injection Ht as Ht _. rewrite <- Ht in Hw. discriminate Hw. }
    destruct (transcriptions_create sv _ _ f) as [text|e1].
    2:{ injection Ht as Ht _. rewrite <- Ht in Hw. discriminate Hw. }
    injection Ht as Ht _.
    destruct (strip_trimmed text) as [l [r [_ [_ [_ [Hhead _]]]]]].
    rewrite Ht in Hhead. specialize (Hhead c t eq_refl).
    simpl in Hw. rewrite Hhead in Hw. discriminate Hw. }
  split; [exact Hnil|]. subst transcribed.
  exists (h2 ++ [EvEnter Detector; EvDetect []; EvEnter Translator]).
  rewrite since_app. split; [|split; reflexivity].
  rewrite (pipeline_after_transcriber sv data _ _ _ _ Ht).
  change (startswith [] (py "[Transcription error]")) with false. cbv iota.
  cbv beta iota delta [bind]. rewrite detect_language_eq, Hdet.
  unfold pipeline_tail, translate_stage.
  change (resolve_target (py "auto") (py "unknown")) with (py "en").
  change (negb (str_eqb (py "en") (py "unknown"))) with true. cbv iota.
  cbv beta iota delta [bind]. rewrite translate_text_eq. cbv zeta.
  change (py_not (strip [])) with true. cbv iota.
  change (startswith (py "[Translation error] Empty input text")
            (py "[Translation error]")) with true. cbv iota.
  unfold ret. flat. reflexivity.
Qed.

Lemma blank_transcript_witness :
  @nil char = [] /\
  exists h',
    pipeline_translate silence (Some []) (py "auto") [] =
      (Ok (PyString [], PyString (py "unknown"),
           PyString (py "[Translation error] Empty input text"), PyNone), h') /\
    since trace_to_transcriber h' = [EvEnter Detector; EvDetect []; EvEnter Translator] /\
    entered Synthesizer (since trace_to_transcriber h') = false.
Proof.
  apply (blank_transcript silence [] [] [] trace_to_transcriber
           (py "No features in text.")).
  - exact silence_transcribes.
  - reflexivity.
  - reflexivity.
Defined.

(** *** The stability guard of the Translator *)

Lemma retried_once_intro (dest_lang text : str) (pre : trace) :
  translate_calls pre = 0%nat -> sleeps pre = 0%nat ->
  retried_once dest_lang text
    (pre ++ [EvTranslate (py "auto") dest_lang text; EvSleep 1;
             EvTranslate (py "auto") dest_lang text]).
Proof.
  intros Hc Hs. unfold retried_once, translate_calls, sleeps in *.
  rewrite !filter_app, !length_app, Hc, Hs. repeat split. now exists pre.
Qed.

(** The first remote call of a run is where the trace says it is. *)
Lemma first_call_position (a b req : event) (rest pre post : trace) :
  is_translate a = false -> is_translate b = false -> is_translate req = true ->
  a :: b :: req :: rest = pre ++ req :: post ->
  translate_calls pre = 0%nat ->
  pre = [a; b].
Proof.
  intros Ha Hb Hreq E Hpre.
  destruct pre as [|x [|y [|z pre]]]; simpl in E.
  - injection E as E _. rewrite E, Hreq in Ha. discriminate.
  - injection E as _ E _. rewrite E, Hreq in Hb. discriminate.
  - injection E as -> -> _. reflexivity.
  - injection E as <- <- <- _. unfold translate_calls in Hpre. simpl in Hpre.
    rewrite Ha, Hb, Hreq in Hpre. discriminate.
Qed.

(** C2, as amended.  For every input text and valid target code, unless the
    input is itself the sentinel that the Translator builds when its first
    remote call fails ("[Translation error] " followed by the message of the
    exception the call raised, or of the [AttributeError] on a reply that is
    [None]), the Translator either returns a value differing from the input
    or has performed exactly one retry (after one sleep of one second)
    before returning text case-insensitively identical to the input; and
    the retry is made whenever the first translated output is
    case-insensitively identical to the input.  The source compares the
    trimmed, lower-cased strings; lower-casing is assumed to leave the outer
    whitespace of the two strings alone, as Python's does. *)
Theorem stability_guard_unless_sentinel (sv : env) (text dest_lang : str)
    (h : trace) :
  translator_new sv (h ++ [EvEnter Translator]) (py "auto") dest_lang = Ok tt ->
  first_call_sentinel sv text dest_lang h <> Some text ->
  first_reply_keeps_outer_space sv text dest_lang h ->
  lower_keeps_outer_space sv text ->
  stability_guard sv text dest_lang h.
Proof.
  intros Hnew Hsent Lt1 Ltext.
  unfold stability_guard. rewrite translate_text_eq. cbv zeta.
  destruct (py_not (strip text)) eqn:Hblank.
  - (* blank input: the sentinel, and no remote call *)
    rewrite since_app. split.
    + left. intros E. injection E as <-. discriminate Hblank.
    + intros pre post t E. exfalso.
      destruct pre as [|x [|y pre]]; simpl in E; discriminate E.
  - rewrite Hnew.
    unfold first_call_sentinel in Hsent. unfold first_reply_keeps_outer_space in Lt1.
    destruct (translator_translate sv
                (h ++ [EvEnter Translator; EvNewTranslator (py "auto") dest_lang])
                (py "auto") dest_lang text) as [[|t1]|e] eqn:Hfirst.
    + (* the first reply is None: the comparison raises, no retry *)
      rewrite since_app. split.
      * left. intros E. apply Hsent. injection E as E. f_equal. exact E.
      * intros pre post t E Hpre Hreply Hci. exfalso.
        apply first_call_position in E; [|reflexivity..|exact Hpre]. subst pre.
        rewrite Hfirst in Hreply. discriminate Hreply.
    + destruct (str_eqb (str_lower sv (strip t1)) (str_lower sv (strip text)))
        eqn:Hsame.
      * (* identical after trimming and lower-casing: sleep and retry *)
        rewrite since_app.
        assert (Hretry : retried_once dest_lang text
                  [EvEnter Translator; EvNewTranslator (py "auto") dest_lang;
                   EvTranslate (py "auto") dest_lang text; EvSleep 1;
                   EvTranslate (py "auto") dest_lang text]).
        { apply (retried_once_intro dest_lang text
                   [EvEnter Translator; EvNewTranslator (py "auto") dest_lang]);
            reflexivity. }
        split; [|intros; exact Hretry].
        set (second := translator_translate sv _ (py "auto") dest_lang text).
        assert (Hret : exists v, match second with
                                 | Ok reply => Ok reply
                                 | Raise e => Ok (PyString (py "[Translation error] " ++ e))
                                 end = Ok v).
        { destruct second; eauto. }
        destruct Hret as [v ->].
        destruct v as [|t]; [left; discriminate|].
        destruct (str_eqb t text) eqn:Ht.
        -- right. split; [exact Hretry|]. exists t. split; [reflexivity|].
           apply str_eqb_eq in Ht. subst t. reflexivity.
        -- left. intros E. injection E as ->. rewrite str_eqb_refl in Ht.
           discriminate.
      * (* different: the first output is returned *)
        rewrite since_app. split.
        -- left. intros E. injection E as ->. rewrite str_eqb_refl in Hsame.
           discriminate.
        -- intros pre post t E Hpre Hreply Hci. exfalso.
           apply first_call_position in E; [|reflexivity..|exact Hpre]. subst pre.
           rewrite Hfirst in Hreply. injection Hreply as <-.
           unfold case_insensitively_identical in Hci.
           unfold lower_keeps_outer_space in Lt1, Ltext.
           rewrite Lt1, Ltext, Hci, str_eqb_refl in Hsame. discriminate.
    + (* the first call raises: the sentinel, no retry *)
      rewrite since_app. split.
      * left. intros E. apply Hsent. injection E as E. f_equal. exact E.
      * intros pre post t E Hpre Hreply Hci. exfalso.
        apply first_call_position in E; [|reflexivity..|exact Hpre]. subst pre.
        rewrite Hfirst in Hreply. discriminate Hreply.
Qed.

Lemma stability_guard_unless_sentinel_witness :
  stability_guard echo (py "Hello world") (py "ur") [] /\
  stability_guard translate_down (py "Hello world") (py "ur") [] /\
  stability_guard null_reply (py "Hello world") (py "ur") [].
Proof.
  split; [|split].
  - apply (stability_guard_unless_sentinel echo (py "Hello world") (py "ur") []);
      [reflexivity|discriminate|reflexivity|reflexivity].
  - apply (stability_guard_unless_sentinel translate_down (py "Hello world")
             (py "ur") []);
      [reflexivity|discriminate|exact I|reflexivity].
  - apply (stability_guard_unless_sentinel null_reply (py "Hello world") (py "ur") []);
      [reflexivity|discriminate|exact I|reflexivity].
Defined.

(** C2, as first worded, fails: the input "[Translation error] boom" comes
    back unchanged, without any retry, when the first remote call raises
    "boom". *)
Lemma stability_guard_counterexample :
  ~ stability_guard translate_down (py "[Translation error] boom") (py "ur") [].
Proof.
  unfold stability_guard. rewrite translate_text_eq. cbv zeta.
  change (py_not (strip (py "[Translation error] boom"))) with false. cbv iota.
  change (translator_new translate_down ([] ++ [EvEnter Translator]) (py "auto") (py "ur"))
    with (@Ok unit tt). cbv iota.
  change (translator_translate translate_down
            ([] ++ [EvEnter Translator; EvNewTranslator (py "auto") (py "ur")])
            (py "auto") (py "ur") (py "[Translation error] boom"))
    with (@Raise pyval (py "boom")). cbv iota.
  intros [[Hdiff | [[Hcalls _] _]] _].
  - apply Hdiff. reflexivity.
  - discriminate Hcalls.
Qed.

(** *** The synthesis-failure gate *)

Lemma tts_down_synthesizes (said : str) :
  strip said = said ->
  startswith said (py "[Transcription error]") = false ->
  startswith said (py "[Translation error]") = false ->
  synthesizes (tts_down said) [] (py "en") [] said (py "en") said
    (py "[TTS error] boo") (trace_to_synthesizer said (py "en")).
Proof.
  intros Hstrip G1 G2.
  exists (trace_to_detector said). split; [|split; [exact G2|reflexivity]].
  exists (trace_to_detector said). split; [|reflexivity].
  exists trace_to_transcriber. split; [|split; [exact G1|reflexivity]].
  exists wav_path. repeat split.
  rewrite transcribe_audio_eq. simpl. now rewrite Hstrip.
Defined.

(** C6, as amended.  When the Synthesizer returns a "[TTS error]" sentinel,
    the orchestrator returns the transcript, the detected language and the
    translated text as they were before synthesis, with a null audio path in
    place of the sentinel; the error text occurs in the tuple only where the
    transcript, the detected language or the translated text holds it. *)
Theorem synthesis_failure_gate (sv : env) (data : bytes) (hint : str) (h : trace)
    (transcribed detected translated audio_output : str) (h5 : trace) :
  synthesizes sv data hint h transcribed detected translated audio_output h5 ->
  startswith audio_output (py "[TTS error]") = true ->
  exists r,
    pipeline_translate sv (Some data) hint h = (Ok r, h5) /\
    r = (PyString transcribed, PyString detected, PyString translated, PyNone) /\
    audioOutputPath r = PyNone /\
    forall v, In v (fields r) -> occurs_in audio_output v ->
      v = PyString transcribed \/ v = PyString detected \/ v = PyString translated.
Proof.
  intros Hs Hgate.
  rewrite (pipeline_after_synthesizer sv data _ _ _ _ _ _ _ Hs), Hgate.
  eexists. split; [reflexivity|]. split; [reflexivity|]. split; [reflexivity|].
  intros v Hin Hocc. simpl in Hin.
  destruct Hin as [<-|[<-|[<-|[<-|[]]]]]; auto.
  destruct Hocc.
Qed.

Lemma synthesis_failure_gate_witness :
  exists r,
    pipeline_translate (tts_down (py "Hello world")) (Some []) (py "en") [] =
      (Ok r, trace_to_synthesizer (py "Hello world") (py "en")) /\
    r = (PyString (py "Hello world"), PyString (py "en"), PyString (py "Hello world"),
         PyNone) /\
    audioOutputPath r = PyNone /\
    forall v, In v (fields r) -> occurs_in (py "[TTS error] boo") v ->
      v = PyString (py "Hello world") \/ v = PyString (py "en") \/
      v = PyString (py "Hello world").
Proof.
  apply (synthesis_failure_gate (tts_down (py "Hello world")) [] (py "en") []
           (py "Hello world") (py "en") (py "Hello world") (py "[TTS error] boo")
           (trace_to_synthesizer (py "Hello world") (py "en"))).
  - apply tts_down_synthesizes; reflexivity.
  - reflexivity.
Defined.

(** C6, as first worded, fails: when the transcript is itself the text
    "[TTS error] boo", the language is the target and synthesis raises
    "boo", the synthesis error text is the first and the third element of
    the returned tuple. *)
Lemma synthesis_failure_counterexample :
  ~ synthesis_failure_hidden (tts_down (py "[TTS error] boo")) [] (py "en") [].
Proof.
  intros H.
  destruct (H (py "[TTS error] boo") (py "en") (py "[TTS error] boo")
              (py "[TTS error] boo")
              (trace_to_synthesizer (py "[TTS error] boo") (py "en")))
    as [r [_ [-> Hhidden]]].
  - apply tts_down_synthesizes; reflexivity.
  - reflexivity.
  - apply (Hhidden (PyString (py "[TTS error] boo"))).
    + left. reflexivity.
    + exists [], []. reflexivity.
Qed.

(** ** More of the program *)

(** *** What each component leaves in the trace *)

Section Shapes.

Variable sv : env.

Lemma transcribe_audio_shape (audio_path : str) (h : trace) :
  exists t d,
    transcribe_audio sv audio_path h = (Ok t, h ++ d) /\
    (d = [EvEnter Transcriber; EvOpen audio_path] \/
     exists f, d = [EvEnter Transcriber; EvOpen audio_path;
                    EvTranscribe (py "whisper-large-v3") f]).
Proof.
  rewrite transcribe_audio_eq.
  destruct (open_rb sv _ audio_path) as [f|e]; [|shape].
  cbv zeta. destruct (transcriptions_create sv _ _ f); shape.
Qed.

Lemma translate_text_shape (text dest_lang : str) (h : trace) :
  let new := EvNewTranslator (py "auto") dest_lang in
  let req := EvTranslate (py "auto") dest_lang text in
  exists t d,
    translate_text sv text dest_lang h = (Ok t, h ++ d) /\
    (d = [EvEnter Translator] \/ d = [EvEnter Translator; new] \/
     d = [EvEnter Translator; new; req] \/
     d = [EvEnter Translator; new; req; EvSleep 1; req]).
Proof.
  rewrite translate_text_eq. cbv zeta.
  destruct (py_not (strip text)); [shape|].
  destruct (translator_new sv _ _ dest_lang); [|shape].
  destruct (translator_translate sv _ _ dest_lang text) as [[|t1]|e];
    [shape| |shape].
  destruct (str_eqb _ _); [|shape].
  destruct (translator_translate sv _ _ dest_lang text); shape.
Qed.

Lemma text_to_speech_shape (text lang : str) (h : trace) :
  let new := EvNewTTS text lang in
  let tmp := EvTempFile (py ".mp3") in
  exists out d,
    text_to_speech sv text lang h = (Ok out, h ++ d) /\
    (d = [EvEnter Synthesizer; new] \/ d = [EvEnter Synthesizer; new; tmp] \/
     exists name, d = [EvEnter Synthesizer; new; tmp; EvSave text lang name]).
Proof.
  rewrite text_to_speech_eq. cbv zeta.
  destruct (gtts_new sv _ text lang); [|shape].
  destruct (temp_create sv _ _) as [name|e]; [|shape].
  destruct (gtts_save sv _ text lang name); shape.
Qed.

End Shapes.

(** *** Every run, stage by stage *)

Section Runs.

Variable sv : env.
Variable data : bytes.

Lemma transcribes_intro (h : trace) (tmp_path : str) (u : unit) :
  temp_create sv h (py ".wav") = Ok tmp_path ->
  temp_write sv (h ++ [EvTempFile (py ".wav")]) tmp_path data = Ok u ->
  exists t h2, transcribes sv data h t h2.
Proof.
  intros Hc Hw. destruct u.
  destruct (transcribe_audio_total sv tmp_path
              (h ++ [EvTempFile (py ".wav"); EvWrite tmp_path data]))
    as [t [d [E _]]].
  exists t, ((h ++ [EvTempFile (py ".wav"); EvWrite tmp_path data]) ++ d), tmp_path.
  auto.
Qed.

Lemma detects_intro (h : trace) (t : str) (h2 : trace) :
  transcribes sv data h t h2 ->
  startswith t (py "[Transcription error]") = false ->
  exists c h3, detects sv data h t c h3.
Proof.
  intros Ht G. destruct (detect_language_total sv t h2) as [c [d [E _]]].
  exists c, (h2 ++ d), h2. auto.
Qed.

Lemma translates_intro (hint : str) (h : trace) (t c : str) (h3 : trace) :
  detects sv data h t c h3 ->
  (exists tl h4, translates sv data hint h t c tl h4) \/
  (exists h4, translates_null sv data hint h t c h4).
Proof.
  intros Hd.
  destruct (translate_stage_total sv t c (resolve_target hint c) h3)
    as [[|tl] [h4 Hs]].
  - right. exists h4, h3. auto.
  - left. exists tl, h4, h3. auto.
Qed.

Lemma synthesizes_intro (hint : str) (h : trace) (t c tl : str) (h4 : trace) :
  translates sv data hint h t c tl h4 ->
  startswith tl (py "[Translation error]") = false ->
  exists out h5, synthesizes sv data hint h t c tl out h5.
Proof.
  intros Ht G.
  destruct (text_to_speech_total sv tl (resolve_target hint c) h4) as [out [d [E _]]].
  exists out, (h4 ++ d), h4. auto.
Qed.

Lemma pipeline_after_null (hint : str) (h : trace) (t c : str) (h4 : trace) :
  translates_null sv data hint h t c h4 ->
  pipeline_translate sv (Some data) hint h =
    (Raise (py "'NoneType' object has no attribute 'startswith'"), h4).
Proof.
  intros [h3 [Hd Hs]].
  rewrite (pipeline_after_detector sv data hint _ _ _ _ Hd).
  unfold pipeline_tail. cbv beta iota delta [bind]. rewrite Hs. reflexivity.
Qed.

(** Once the temporary copy is written, a run returns in one of the four
    ways, or raises at line 95 on a [None] from lines 91-93. *)
Lemma pipeline_outcome (hint : str) (h : trace) (tmp_path : str) (u : unit) :
  temp_create sv h (py ".wav") = Ok tmp_path ->
  temp_write sv (h ++ [EvTempFile (py ".wav")]) tmp_path data = Ok u ->
  (exists r h', pipeline_translate sv (Some data) hint h = (Ok r, h') /\
                run_end sv data hint h r h') \/
  (exists t c h4,
     translates_null sv data hint h t c h4 /\
     pipeline_translate sv (Some data) hint h =
       (Raise (py "'NoneType' object has no attribute 'startswith'"), h4)).
Proof.
  intros Hc Hw.
  destruct (transcribes_intro h tmp_path u Hc Hw) as [t [h2 Ht]].
  destruct (startswith t (py "[Transcription error]")) eqn:G1.
  { left. do 2 eexists. split; [|exact (EndTranscription sv data hint h t h2 Ht G1)].
    rewrite (pipeline_after_transcriber sv data hint _ _ _ Ht), G1. reflexivity. }
  destruct (detects_intro h t h2 Ht G1) as [c [h3 Hd]].
  destruct (translates_intro hint h t c h3 Hd) as [[tl [h4 Htl]] | [h4 Hnull]].
  2:{ right. exists t, c, h4. split; [exact Hnull|].
      exact (pipeline_after_null hint h t c h4 Hnull). }
  left.
  destruct (startswith tl (py "[Translation error]")) eqn:G2.
  { do 2 eexists. split; [|exact (EndTranslation sv data hint h t c tl h4 Htl G2)].
    rewrite (pipeline_after_translator sv data hint _ _ _ _ _ Htl), G2. reflexivity. }
  destruct (synthesizes_intro hint h t c tl h4 Htl G2) as [out [h5 Hs]].
  pose proof (pipeline_after_synthesizer sv data hint _ _ _ _ _ _ Hs) as E.
  destruct (startswith out (py "[TTS error]")) eqn:G3; do 2 eexists; (split; [exact E|]).
  - exact (EndSynthesis sv data hint h t c tl out h5 Hs G3).
  - exact (EndSuccess sv data hint h t c tl out h5 Hs G3).
Qed.

(** Every returning run with an upload ended in one of the four ways. *)
Lemma pipeline_inversion (hint : str) (h : trace) (r : result) (h' : trace) :
  pipeline_translate sv (Some data) hint h = (Ok r, h') ->
  run_end sv data hint h r h'.
Proof.
  intros Hrun.
  destruct (temp_create sv h (py ".wav")) as [tmp_path|e] eqn:Hc.
  2:{ unfold pipeline_translate in Hrun. cbv beta iota delta [bind call] in Hrun.
      rewrite Hc in Hrun. discriminate. }
  destruct (temp_write sv (h ++ [EvTempFile (py ".wav")]) tmp_path data) as [u|e] eqn:Hw.
  2:{ unfold pipeline_translate in Hrun. cbv beta iota delta [bind call] in Hrun.
      rewrite Hc in Hrun. cbv beta iota in Hrun. rewrite Hw in Hrun. discriminate. }
  destruct (pipeline_outcome hint h tmp_path u Hc Hw)
    as [[r0 [h0 [E Hend]]] | [t [c [h4 [_ E]]]]];
    rewrite E in Hrun; [|discriminate Hrun].
  injection Hrun as <- <-. exact Hend.
Qed.

End Runs.

(** *** The events of a run *)

Section RunTraces.

Variable sv : env.
Variable data : bytes.

Lemma transcribes_trace (h : trace) (t : str) (h2 : trace) :
  transcribes sv data h t h2 ->
  exists tmp_path dT,
    transcriber_trace tmp_path dT /\
    h2 = h ++ [EvTempFile (py ".wav"); EvWrite tmp_path data] ++ dT.
Proof.
  intros [tmp_path [_ [_ Ht]]].
  destruct (transcribe_audio_shape sv tmp_path
              (h ++ [EvTempFile (py ".wav"); EvWrite tmp_path data]))
    as [t' [d [E Hd]]].
  rewrite E in Ht. injection Ht as _ <-.
  exists tmp_path, d. split; [exact Hd|]. assoc.
Qed.

Lemma translates_trace (hint : str) (h : trace) (t c tl : str) (h4 : trace) :
  translates sv data hint h t c tl h4 ->
  exists tmp_path dT dX,
    transcriber_trace tmp_path dT /\
    h4 = h ++ [EvTempFile (py ".wav"); EvWrite tmp_path data] ++ dT
           ++ [EvEnter Detector; EvDetect t] ++ dX /\
    ((resolve_target hint c = c /\ dX = [] /\ tl = t) \/
     (resolve_target hint c <> c /\ translator_trace (resolve_target hint c) t dX)).
Proof.
  intros [h3 [[h2 [Ht [_ Hd]]] Hs]].
  destruct (transcribes_trace _ _ _ Ht) as [tmp_path [dT [HdT ->]]].
  rewrite detect_language_eq in Hd. injection Hd as _ <-.
  unfold translate_stage in Hs.
  destruct (str_eqb (resolve_target hint c) c) eqn:Heq;
    cbv beta iota delta [negb] in Hs.
  - apply str_eqb_eq in Heq. injection Hs as <- <-.
    exists tmp_path, dT, []. split; [exact HdT|]. split.
    + rewrite app_nil_r. assoc.
    + left. auto.
  - apply str_eqb_neq in Heq.
    match type of Hs with translate_text _ _ _ ?h0 = _ =>
      destruct (translate_text_shape sv t (resolve_target hint c) h0)
        as [tl' [dX [E HdX]]]
    end.
    rewrite E in Hs. injection Hs as _ <-.
    exists tmp_path, dT, dX. split; [exact HdT|]. split.
    + assoc.
    + right. split; [exact Heq|exact HdX].
Qed.

Lemma synthesizes_trace (hint : str) (h : trace) (t c tl out : str) (h5 : trace) :
  synthesizes sv data hint h t c tl out h5 ->
  exists tmp_path dT dX dS,
    transcriber_trace tmp_path dT /\
    h5 = h ++ [EvTempFile (py ".wav"); EvWrite tmp_path data] ++ dT
           ++ [EvEnter Detector; EvDetect t] ++ dX ++ dS /\
    ((resolve_target hint c = c /\ dX = [] /\ tl = t) \/
     (resolve_target hint c <> c /\ translator_trace (resolve_target hint c) t dX)) /\
    synthesizer_trace tl (resolve_target hint c) dS.
Proof.
  intros [h4 [Ht [_ Hs]]].
  destruct (translates_trace _ _ _ _ _ _ Ht) as [tmp_path [dT [dX [HdT [-> HdX]]]]].
  match type of Hs with text_to_speech _ _ _ ?h0 = _ =>
    destruct (text_to_speech_shape sv tl (resolve_target hint c) h0)
      as [out' [dS [E HdS]]]
  end.
  rewrite E in Hs. injection Hs as _ <-.
  exists tmp_path, dT, dX, dS. split; [exact HdT|]. split.
  - assoc.
  - split; [exact HdX|exact HdS].
Qed.

Lemma run_end_trace (hint : str) (h : trace) (r : result) (h' : trace) :
  run_end sv data hint h r h' ->
  exists d, h' = h ++ d /\ run_trace data hint r d.
Proof.
  intros [t h2 Ht G | t c tl h4 Ht G | t c tl out h5 Hs G | t c tl out h5 Hs G].
  - destruct (transcribes_trace _ _ _ Ht) as [tmp_path [dT [HdT ->]]].
    eexists. split; [reflexivity|].
    exists tmp_path, dT. split; [exact HdT|]. left. exists t. split; reflexivity.
  - destruct (translates_trace _ _ _ _ _ _ Ht) as [tmp_path [dT [dX [HdT [-> HdX]]]]].
    eexists. split; [reflexivity|].
    exists tmp_path, dT. split; [exact HdT|]. right.
    exists t, c, tl, PyNone, dX, []. rewrite app_nil_r.
    split; [reflexivity|]. split; [reflexivity|]. split; [exact HdX|]. left. auto.
  - destruct (synthesizes_trace _ _ _ _ _ _ _ Hs)
      as [tmp_path [dT [dX [dS [HdT [-> [HdX HdS]]]]]]].
    eexists. split; [reflexivity|].
    exists tmp_path, dT. split; [exact HdT|]. right.
    exists t, c, tl, PyNone, dX, dS.
    split; [reflexivity|]. split; [reflexivity|]. split; [exact HdX|]. right. exact HdS.
  - destruct (synthesizes_trace _ _ _ _ _ _ _ Hs)
      as [tmp_path [dT [dX [dS [HdT [-> [HdX HdS]]]]]]].
    eexists. split; [reflexivity|].
    exists tmp_path, dT. split; [exact HdT|]. right.
    exists t, c, tl, (PyString out), dX, dS.
    split; [reflexivity|]. split; [reflexivity|]. split; [exact HdX|]. right. exact HdS.
Qed.

(** The events of any returning run. *)
Lemma pipeline_run_trace (hint : str) (h : trace) (r : result) (h' : trace) :
  pipeline_translate sv (Some data) hint h = (Ok r, h') ->
  exists d, h' = h ++ d /\ run_trace data hint r d.
Proof. intros Hrun. apply run_end_trace. now apply pipeline_inversion. Qed.

(** The Translator returns [None] only as the reply of its retry. *)
Lemma translate_text_null (text dest_lang : str) (h h' : trace) :
  translate_text sv text dest_lang h = (Ok PyNone, h') ->
  let new := EvNewTranslator (py "auto") dest_lang in
  let req := EvTranslate (py "auto") dest_lang text in
  h' = h ++ [EvEnter Translator; new; req; EvSleep 1; req] /\
  translator_translate sv (h ++ [EvEnter Translator; new; req; EvSleep 1])
    (py "auto") dest_lang text = Ok PyNone.
Proof.
  rewrite translate_text_eq. cbv zeta.
  destruct (py_not (strip text)); [discriminate|].
  destruct (translator_new sv _ _ dest_lang); [|discriminate].
  destruct (translator_translate sv _ _ dest_lang text) as [[|t1]|e];
    [discriminate| |discriminate].
  destruct (str_eqb _ _); [|discriminate].
  destruct (translator_translate sv _ _ dest_lang text) as [[|t2]|e];
    try discriminate.
  intros E. injection E as <-. split; reflexivity.
Qed.

Lemma translates_null_raised (hint : str) (h : trace) (t c : str) (h4 : trace) :
  translates_null sv data hint h t c h4 ->
  raised_by_null_retry sv h (py "'NoneType' object has no attribute 'startswith'") h4.
Proof.
  intros [h3 [[h2 [Ht [_ Hd]]] Hs]].
  destruct (transcribes_trace _ _ _ Ht) as [tmp_path [dT [HdT ->]]].
  rewrite detect_language_eq in Hd. injection Hd as _ <-.
  unfold translate_stage in Hs.
  destruct (str_eqb (resolve_target hint c) c);
    cbv beta iota delta [negb ret] in Hs; [discriminate Hs|].
  apply translate_text_null in Hs. cbv zeta in Hs. destruct Hs as [-> Hnull].
  split; [reflexivity|].
  split.
  - rewrite <- !app_assoc, since_app.
    destruct HdT as [-> | [f ->]]; reflexivity.
  - exists ([EvTempFile (py ".wav"); EvWrite tmp_path data] ++ dT ++
            [EvEnter Detector; EvDetect t; EvEnter Translator;
             EvNewTranslator (py "auto") (resolve_target hint c)]),
           (resolve_target hint c), t.
    split.
    + rewrite <- !app_assoc, since_app. assoc.
    + rewrite <- Hnull. f_equal. assoc.
Qed.

End RunTraces.

(** Why a run with an upload raised. *)
Lemma pipeline_raise_causes (sv : env) (data : bytes) (hint : str) (h : trace)
    (e : str) (h' : trace) :
  pipeline_translate sv (Some data) hint h = (Raise e, h') ->
  raised_by_copy sv data h e h' \/ raised_by_null_retry sv h e h'.
Proof.
  intros Hrun.
  destruct (temp_create sv h (py ".wav")) as [tmp_path|e0] eqn:Hc.
  - destruct (temp_write sv (h ++ [EvTempFile (py ".wav")]) tmp_path data)
      as [u|e0] eqn:Hw.
    + destruct (pipeline_outcome sv data hint h tmp_path u Hc Hw)
        as [[r0 [h0 [E _]]] | [t [c [h4 [Hnull E]]]]];
        rewrite E in Hrun; [discriminate Hrun|].
      injection Hrun as <- <-. right. exact (translates_null_raised sv data _ _ _ _ _ Hnull).
    + unfold pipeline_translate in Hrun. cbv beta iota delta [bind call] in Hrun.
      rewrite Hc in Hrun. cbv beta iota in Hrun. rewrite Hw in Hrun.
      injection Hrun as <- <-. left. split.
      * rewrite <- app_assoc, since_app. reflexivity.
      * right. eauto.
  - unfold pipeline_translate in Hrun. cbv beta iota delta [bind call] in Hrun.
    rewrite Hc in Hrun. injection Hrun as <- <-. left. split.
    + rewrite since_app. reflexivity.
    + now left.
Qed.

(** [run_cases H] splits a run, given by its events [H : run_trace _ _ _ _],
    into the ways it can have gone. *)
Ltac run_cases H :=
  let HdT := fresh "HdT" in
  let Hrest := fresh "Hrest" in
  let HdX := fresh "HdX" in
  let HdS := fresh "HdS" in
  let Hres := fresh "Hres" in
  destruct H as [?tmp_path [?dT [HdT Hrest]]];
  cbv zeta in Hrest;
  unfold transcriber_trace in HdT;
  destruct HdT as [-> | [?f ->]];
  (destruct Hrest as [[?t [-> ->]]
                     | [?t [?c [?tl [?a [?dX [?dS [-> [-> [HdX HdS]]]]]]]]]];
   [ | unfold translator_trace, synthesizer_trace in HdX, HdS;
       cbv zeta in HdX, HdS;
       (destruct HdX as [[Hres [-> ->]] | [Hres [-> | [-> | [-> | ->]]]]]);
       (destruct HdS as [[-> ->] | [-> | [-> | [?name ->]]]]) ]).

Lemma resolve_target_not_auto (hint detected : str) :
  resolve_target hint detected <> py "auto".
Proof.
  unfold resolve_target. destruct (str_eqb hint (py "auto")) eqn:Hh.
  - destruct (str_eqb detected (py "en")); discriminate.
  - now apply str_eqb_neq.
Qed.

Lemma resolve_auto_moves (detected : str) :
  resolve_target (py "auto") detected <> detected.
Proof.
  unfold resolve_target. rewrite str_eqb_refl.
  destruct (str_eqb detected (py "en")) eqn:He.
  - apply str_eqb_eq in He. subst. discriminate.
  - apply str_eqb_neq in He. congruence.
Qed.

Lemma sentinel_transcription (e : str) :
  startswith (py "[Transcription error] " ++ e) (py "[Transcription error]") = true.
Proof. reflexivity. Qed.

Lemma sentinel_translation (e : str) :
  startswith (py "[Translation error] " ++ e) (py "[Translation error]") = true.
Proof. reflexivity. Qed.

Lemma sentinel_tts (e : str) :
  startswith (py "[TTS error] " ++ e) (py "[TTS error]") = true.
Proof. reflexivity. Qed.

Lemma scripted_detects (whisper : str) (detect first second : outcome str)
    (tts : outcome unit) :
  startswith (strip whisper) (py "[Transcription error]") = false ->
  detects (scripted (Ok whisper) detect first second tts) [] [] (strip whisper)
    (match detect with Ok code => code | Raise _ => py "unknown" end)
    (trace_to_detector (strip whisper)).
Proof.
  intros G. exists trace_to_transcriber. split; [|split; [exact G|]].
  - exists wav_path. repeat split.
  - rewrite detect_language_eq. reflexivity.
Defined.

(** *** What the orchestrator lets out, and what it keeps *)

(** X1. An exception leaves [pipeline_translate] in exactly two ways.
    Making or writing the temporary copy of the upload raises (lines 79-81,
    outside every [try]), before any component is entered.  Or the retry of
    the translation replies [None], which line 56 returns unchecked and on
    which the test of line 95 raises an [AttributeError], after the
    Transcriber, the Detector and the Translator ran and before the
    Synthesizer.  A run that returns has written the copy. *)
Theorem uncaught_exceptions (sv : env) (data : bytes) (hint : str) (h : trace) :
  match pipeline_translate sv (Some data) hint h with
  | (Raise e, h') => raised_by_copy sv data h e h' \/ raised_by_null_retry sv h e h'
  | (Ok r, h') =>
      exists tmp_path u,
        temp_create sv h (py ".wav") = Ok tmp_path /\
        temp_write sv (h ++ [EvTempFile (py ".wav")]) tmp_path data = Ok u
  end.
Proof.
  destruct (pipeline_translate sv (Some data) hint h) as [[r|e] h'] eqn:Hrun.
  - unfold pipeline_translate in Hrun. cbv beta iota delta [bind call] in Hrun.
    destruct (temp_create sv h (py ".wav")) as [tmp_path|e] eqn:Hc;
      [|discriminate Hrun].
    cbv beta iota in Hrun.
    destruct (temp_write sv (h ++ [EvTempFile (py ".wav")]) tmp_path data)
      as [u|e] eqn:Hw; [|discriminate Hrun].
    exists tmp_path, u. split; [reflexivity|exact Hw].
  - exact (pipeline_raise_causes sv data hint h e h' Hrun).
Qed.

(** X2. The components run in the order Transcriber, Detector, Translator,
    Synthesizer, each at most once: a returning run has entered a prefix of
    that sequence, possibly without the Translator. *)
Theorem components_in_order (sv : env) (audio_file : option bytes) (hint : str)
    (h : trace) (r : result) (h' : trace) :
  pipeline_translate sv audio_file hint h = (Ok r, h') ->
  In (components_entered (since h h'))
     [[]; [Transcriber]; [Transcriber; Detector];
      [Transcriber; Detector; Translator];
      [Transcriber; Detector; Synthesizer];
      [Transcriber; Detector; Translator; Synthesizer]].
Proof.
  intros Hrun. destruct audio_file as [data|].
  - destruct (pipeline_run_trace sv data hint h r h' Hrun) as [d [-> Hd]].
    rewrite since_app. run_cases Hd; simpl; auto 10.
  - injection Hrun as _ <-. rewrite since_self. simpl. auto.
Qed.

Lemma components_in_order_witness :
  In (components_entered (since [] happy_trace))
     [[]; [Transcriber]; [Transcriber; Detector];
      [Transcriber; Detector; Translator];
      [Transcriber; Detector; Synthesizer];
      [Transcriber; Detector; Translator; Synthesizer]].
Proof.
  apply (components_in_order happy (Some []) (py "auto") []
           (PyString (py "Hello world"), PyString (py "en"), PyString hello_ur,
            PyString mp3_path) happy_trace).
  reflexivity.
Defined.

(** X3. In one run the orchestrator makes at most one speech-recognition
    call, one language detection, two translation calls with one sleep, one
    speech-synthesis call, and two temporary files. *)
Theorem external_call_bounds (sv : env) (audio_file : option bytes) (hint : str)
    (h : trace) (r : result) (h' : trace) :
  pipeline_translate sv audio_file hint h = (Ok r, h') ->
  (count is_transcribe (since h h') <= 1)%nat /\
  (count is_detect (since h h') <= 1)%nat /\
  (translate_calls (since h h') <= 2)%nat /\
  (sleeps (since h h') <= 1)%nat /\
  (count is_save (since h h') <= 1)%nat /\
  (count is_tempfile (since h h') <= 2)%nat.
Proof.
  intros Hrun. destruct audio_file as [data|].
  - destruct (pipeline_run_trace sv data hint h r h' Hrun) as [d [-> Hd]].
    rewrite since_app. unfold count, translate_calls, sleeps.
    run_cases Hd; simpl; repeat split; lia.
  - injection Hrun as _ <-. rewrite since_self. cbv. repeat split; lia.
Qed.

Lemma external_call_bounds_witness :
  (count is_transcribe (since [] happy_trace) <= 1)%nat /\
  (count is_detect (since [] happy_trace) <= 1)%nat /\
  (translate_calls (since [] happy_trace) <= 2)%nat /\
  (sleeps (since [] happy_trace) <= 1)%nat /\
  (count is_save (since [] happy_trace) <= 1)%nat /\
  (count is_tempfile (since [] happy_trace) <= 2)%nat.
Proof.
  apply (external_call_bounds happy (Some []) (py "auto") []
           (PyString (py "Hello world"), PyString (py "en"), PyString hello_ur,
            PyString mp3_path) happy_trace).
  reflexivity.
Defined.

Lemma run_trace_translator (data : bytes) (hint : str) (r : result) (d : trace)
    (c : str) :
  run_trace data hint r d ->
  detectedLanguage r = PyString c ->
  entered Translator d = negb (str_eqb (resolve_target hint c) c).
Proof.
  intros Hd Hc.
  run_cases Hd; simpl in Hc; try discriminate Hc; injection Hc as ->;
    try (rewrite Hres, str_eqb_refl; reflexivity);
    apply str_eqb_neq in Hres; rewrite Hres; reflexivity.
Qed.

(** X4. Past the first gate, the Translator is entered exactly when the
    resolved target differs from the detected language. *)
Theorem translator_entered_iff (sv : env) (data : bytes) (hint : str) (h : trace)
    (r : result) (h' : trace) (detected : str) :
  pipeline_translate sv (Some data) hint h = (Ok r, h') ->
  detectedLanguage r = PyString detected ->
  (entered Translator (since h h') = true <-> resolve_target hint detected <> detected).
Proof.
  intros Hrun Hc.
  destruct (pipeline_run_trace sv data hint h r h' Hrun) as [d [-> Hd]].
  rewrite since_app, (run_trace_translator data hint r d detected Hd Hc).
  rewrite negb_true_iff. apply str_eqb_neq.
Qed.

Lemma translator_entered_iff_witness :
  entered Translator (since [] happy_trace) = true <->
  resolve_target (py "auto") (py "en") <> py "en".
Proof.
  apply (translator_entered_iff happy [] (py "auto") []
           (PyString (py "Hello world"), PyString (py "en"), PyString hello_ur,
            PyString mp3_path) happy_trace (py "en")); reflexivity.
Defined.

(** X5. With the hint "auto" translation is never skipped: every run that
    gets past the first gate enters the Translator, because the target
    resolved from "auto" always differs from the detected language. *)
Theorem auto_always_translates (sv : env) (data : bytes) (h : trace)
    (r : result) (h' : trace) (detected : str) :
  pipeline_translate sv (Some data) (py "auto") h = (Ok r, h') ->
  detectedLanguage r = PyString detected ->
  resolve_target (py "auto") detected <> detected /\
  entered Translator (since h h') = true.
Proof.
  intros Hrun Hc. split; [apply resolve_auto_moves|].
  destruct (pipeline_run_trace sv data (py "auto") h r h' Hrun) as [d [-> Hd]].
  rewrite since_app, (run_trace_translator data (py "auto") r d detected Hd Hc).
  apply negb_true_iff, str_eqb_neq, resolve_auto_moves.
Qed.

Lemma auto_always_translates_witness :
  resolve_target (py "auto") (py "unknown") <> py "unknown" /\
  entered Translator
    (since [] (snd (pipeline_translate silence (Some []) (py "auto") []))) = true.
Proof.
  apply (auto_always_translates silence [] []
           (PyString [], PyString (py "unknown"),
            PyString (py "[Translation error] Empty input text"), PyNone)
           (snd (pipeline_translate silence (Some []) (py "auto") []))
           (py "unknown")); reflexivity.
Defined.

(** X6. Every call of a run that carries a target language (building the
    translator, translating, building and saving the speech) carries the
    resolved target, and that is never "auto". *)
Theorem calls_carry_resolved_target (sv : env) (data : bytes) (hint : str)
    (h : trace) (r : result) (h' : trace) (detected : str) :
  pipeline_translate sv (Some data) hint h = (Ok r, h') ->
  detectedLanguage r = PyString detected ->
  forall ev lang,
    In ev (since h h') -> target_language ev = Some lang ->
    lang = resolve_target hint detected /\ lang <> py "auto".
Proof.
  intros Hrun Hc ev lang Hin Hlang.
  assert (E : lang = resolve_target hint detected).
  { destruct (pipeline_run_trace sv data hint h r h' Hrun) as [d [-> Hd]].
    rewrite since_app in Hin.
    run_cases Hd; simpl in Hc; try discriminate Hc; injection Hc as ->;
      simpl in Hin;
      repeat (destruct Hin as [<- | Hin];
              [simpl in Hlang; first [discriminate Hlang | now injection Hlang] |]);
      destruct Hin. }
  split; [exact E|]. rewrite E. apply resolve_target_not_auto.
Qed.

Lemma calls_carry_resolved_target_witness :
  py "ur" = resolve_target (py "auto") (py "en") /\ py "ur" <> py "auto".
Proof.
  apply (calls_carry_resolved_target happy [] (py "auto") []
           (PyString (py "Hello world"), PyString (py "en"), PyString hello_ur,
            PyString mp3_path) happy_trace (py "en") eq_refl eq_refl
           (EvSave hello_ur (py "ur") mp3_path) (py "ur")).
  - cbv. tauto.
  - reflexivity.
Defined.

(** X7. The result tuple has one of two shapes.  Its first element is always
    a string.  Either the other three are all null, and then the first is
    "[Error] No audio input" or starts with "[Transcription error]"; or the
    second and third are strings, and then the first does not start with
    "[Transcription error]". *)
Theorem result_shape (sv : env) (audio_file : option bytes) (hint : str)
    (h : trace) (r : result) (h' : trace) :
  pipeline_translate sv audio_file hint h = (Ok r, h') ->
  exists t,
    transcribedText r = PyString t /\
    ((detectedLanguage r = PyNone /\ translatedText r = PyNone /\
      audioOutputPath r = PyNone /\
      (t = py "[Error] No audio input" \/
       startswith t (py "[Transcription error]") = true))
     \/
     (exists c tl,
        detectedLanguage r = PyString c /\ translatedText r = PyString tl /\
        startswith t (py "[Transcription error]") = false)).
Proof.
  intros Hrun. destruct audio_file as [data|].
  - destruct (pipeline_inversion sv data hint h r h' Hrun)
      as [t h2 Ht G | t c tl h4 Ht G | t c tl out h5 Hs G | t c tl out h5 Hs G];
      exists t; (split; [reflexivity|]).
    + left. auto.
    + right. exists c, tl. destruct Ht as [h3 [[h2 [_ [G1 _]]] _]]. auto.
    + right. exists c, tl. destruct Hs as [h4 [[h3 [[h2 [_ [G1 _]]] _]] _]]. auto.
    + right. exists c, tl. destruct Hs as [h4 [[h3 [[h2 [_ [G1 _]]] _]] _]]. auto.
  - injection Hrun as <- _. eexists. split; [reflexivity|]. left. auto.
Qed.

Lemma result_shape_witness :
  exists t,
    PyString (py "[Transcription error] Connection error.") = PyString t /\
    ((PyNone = PyNone /\ PyNone = PyNone /\ PyNone = PyNone /\
      (t = py "[Error] No audio input" \/
       startswith t (py "[Transcription error]") = true))
     \/
     (exists c tl,
        PyNone = PyString c /\ PyNone = PyString tl /\
        startswith t (py "[Transcription error]") = false)).
Proof.
  apply (result_shape whisper_down (Some []) (py "auto") []
           (PyString (py "[Transcription error] Connection error."),
            PyNone, PyNone, PyNone) trace_to_transcriber).
  reflexivity.
Defined.

(** *** Failures, end to end *)

Lemma translate_down_translates :
  translates translate_down [] (py "auto") [] (py "Hello world") (py "en")
    (py "[Translation error] boom") trace_to_translator.
Proof.
  exists (trace_to_detector (py "Hello world")). split; [|reflexivity].
  apply (scripted_detects (py "Hello world") (Ok (py "en"))). reflexivity.
Defined.

(** X8. The second gate (lines 95-96): when the text that comes out of
    lines 91-93 starts with "[Translation error]", the orchestrator returns
    the transcript, the detected language and that text with a null audio
    path; the Synthesizer is not entered and no second temporary file is
    made. *)
Theorem translation_failure_gate (sv : env) (data : bytes) (hint : str) (h : trace)
    (transcribed detected translated : str) (h4 : trace) :
  translates sv data hint h transcribed detected translated h4 ->
  startswith translated (py "[Translation error]") = true ->
  pipeline_translate sv (Some data) hint h =
    (Ok (PyString transcribed, PyString detected, PyString translated, PyNone), h4) /\
  entered Synthesizer (since h h4) = false /\
  count is_tempfile (since h h4) = 1%nat.
Proof.
  intros Ht G. split.
  - rewrite (pipeline_after_translator sv data hint _ _ _ _ _ Ht), G. reflexivity.
  - destruct (translates_trace sv data hint h _ _ _ _ Ht)
      as [tmp_path [dT [dX [HdT [-> HdX]]]]].
    rewrite since_app. unfold count.
    destruct HdT as [-> | [f ->]];
      (destruct HdX as [[_ [-> _]] | [_ [-> | [-> | [-> | ->]]]]]);
      split; reflexivity.
Qed.

Lemma translation_failure_gate_witness :
  pipeline_translate translate_down (Some []) (py "auto") [] =
    (Ok (PyString (py "Hello world"), PyString (py "en"),
         PyString (py "[Translation error] boom"), PyNone), trace_to_translator) /\
  entered Synthesizer (since [] trace_to_translator) = false /\
  count is_tempfile (since [] trace_to_translator) = 1%nat.
Proof.
  apply (translation_failure_gate translate_down [] (py "auto") []
           (py "Hello world") (py "en") (py "[Translation error] boom")
           trace_to_translator).
  - exact translate_down_translates.
  - reflexivity.
Defined.

(** X9. When opening the temporary copy or the remote speech recognition
    raises, the orchestrator returns "[Transcription error] " followed by
    the message, with three nulls, and no component after the Transcriber
    is entered: the sentinel the Transcriber builds is always caught by the
    first gate. *)
Theorem transcription_exception_closes_run (sv : env) (data : bytes) (hint : str)
    (h : trace) (tmp_path : str) (u : unit) (e : str) :
  temp_create sv h (py ".wav") = Ok tmp_path ->
  temp_write sv (h ++ [EvTempFile (py ".wav")]) tmp_path data = Ok u ->
  transcriber_raises sv tmp_path
    (h ++ [EvTempFile (py ".wav"); EvWrite tmp_path data]) e ->
  exists h',
    pipeline_translate sv (Some data) hint h =
      (Ok (PyString (py "[Transcription error] " ++ e), PyNone, PyNone, PyNone), h') /\
    components_entered (since h h') = [Transcriber].
Proof.
  intros Hc Hw Hraise. destruct u.
  set (h1 := h ++ [EvTempFile (py ".wav"); EvWrite tmp_path data]) in *.
  assert (Ht : exists d,
             transcribe_audio sv tmp_path h1 =
             (Ok (py "[Transcription error] " ++ e), h1 ++ d) /\
             components_entered d = [Transcriber]).
  { rewrite transcribe_audio_eq. unfold transcriber_raises in Hraise.
    destruct Hraise as [-> | [f [-> ->]]]; eexists; split; reflexivity. }
  destruct Ht as [d [Ht Hd]].
  exists (h1 ++ d). split.
  - rewrite (pipeline_after_transcriber sv data hint h _ _
               (ex_intro _ tmp_path (conj Hc (conj Hw Ht)))).
    rewrite sentinel_transcription. reflexivity.
  - unfold h1. rewrite <- app_assoc, since_app. exact Hd.
Qed.

Lemma transcription_exception_closes_run_witness :
  exists h',
    pipeline_translate whisper_down (Some []) (py "en") [] =
      (Ok (PyString (py "[Transcription error] " ++ py "Connection error."),
           PyNone, PyNone, PyNone), h') /\
    components_entered (since [] h') = [Transcriber].
Proof.
  apply (transcription_exception_closes_run whisper_down [] (py "en") []
           wav_path tt (py "Connection error.")).
  - reflexivity.
  - reflexivity.
  - right. exists []. split; reflexivity.
Defined.

Lemma translate_text_raising (sv : env) (text dest_lang : str) (h : trace) (e : str) :
  whitespace_only text = false ->
  translator_raises sv text dest_lang h e ->
  exists d, translate_text sv text dest_lang h =
              (Ok (PyString (py "[Translation error] " ++ e)), h ++ d) /\
            entered Synthesizer d = false.
Proof.
  intros Hw Hraise.
  assert (Hb : py_not (strip text) = false).
  { destruct (strip text) eqn:E; [|reflexivity].
    apply strip_nil_iff in E. congruence. }
  rewrite translate_text_eq, Hb. cbv zeta. unfold translator_raises in Hraise.
  cbv zeta in Hraise.
  destruct Hraise as [-> | [u [-> [-> | [[-> ->] | [t1 [-> [-> ->]]]]]]]];
    eexists; split; reflexivity.
Qed.

(** X10. When building the translator, the first remote call, the
    comparison of line 53 on a first reply that is [None], or the retry
    raises, the orchestrator returns the transcript, the detected language
    and "[Translation error] " followed by the message, with a null audio
    path, and the Synthesizer is not entered. *)
Theorem translation_exception_closes_run (sv : env) (data : bytes) (hint : str)
    (h : trace) (transcribed detected : str) (h3 : trace) (e : str) :
  detects sv data h transcribed detected h3 ->
  resolve_target hint detected <> detected ->
  whitespace_only transcribed = false ->
  translator_raises sv transcribed (resolve_target hint detected) h3 e ->
  exists h',
    pipeline_translate sv (Some data) hint h =
      (Ok (PyString transcribed, PyString detected,
           PyString (py "[Translation error] " ++ e), PyNone), h') /\
    entered Synthesizer (since h h') = false.
Proof.
  intros Hd Hres Hw Hraise.
  destruct (translate_text_raising sv _ _ _ _ Hw Hraise) as [d [E Hsyn]].
  assert (Ht : translates sv data hint h transcribed detected
                 (py "[Translation error] " ++ e) (h3 ++ d)).
  { exists h3. split; [exact Hd|]. unfold translate_stage.
    apply str_eqb_neq in Hres. rewrite Hres. exact E. }
  exists (h3 ++ d). split.
  - rewrite (pipeline_after_translator sv data hint _ _ _ _ _ Ht).
    rewrite sentinel_translation. reflexivity.
  - destruct (translates_trace sv data hint h _ _ _ _ Ht)
      as [tmp_path [dT [dX [HdT [-> HdX]]]]].
    rewrite since_app.
    destruct HdT as [-> | [f ->]];
      (destruct HdX as [[_ [-> _]] | [_ [-> | [-> | [-> | ->]]]]]); reflexivity.
Qed.

Lemma translation_exception_closes_run_witness :
  exists h',
    pipeline_translate translate_down (Some []) (py "auto") [] =
      (Ok (PyString (py "Hello world"), PyString (py "en"),
           PyString (py "[Translation error] " ++ py "boom"), PyNone), h') /\
    entered Synthesizer (since [] h') = false.
Proof.
  apply (translation_exception_closes_run translate_down [] (py "auto") []
           (py "Hello world") (py "en") (trace_to_detector (py "Hello world"))
           (py "boom")).
  - apply (scripted_detects (py "Hello world") (Ok (py "en"))). reflexivity.
  - discriminate.
  - reflexivity.
  - right. exists tt. split; [reflexivity|]. left. reflexivity.
Defined.

(** X11. When building the speech, making its temporary file or saving it
    raises, the orchestrator returns the transcript, the detected language
    and the translated text with a null audio path: every failure of the
    Synthesizer is caught by the third gate. *)
Theorem synthesis_exception_closes_run (sv : env) (data : bytes) (hint : str)
    (h : trace) (transcribed detected translated : str) (h4 : trace) (e : str) :
  translates sv data hint h transcribed detected translated h4 ->
  startswith translated (py "[Translation error]") = false ->
  synthesizer_raises sv translated (resolve_target hint detected) h4 e ->
  exists h',
    pipeline_translate sv (Some data) hint h =
      (Ok (PyString transcribed, PyString detected, PyString translated, PyNone), h').
Proof.
  intros Ht G Hraise.
  assert (Hs : exists d, text_to_speech sv translated (resolve_target hint detected) h4
                         = (Ok (py "[TTS error] " ++ e), h4 ++ d)).
  { rewrite text_to_speech_eq. cbv zeta. unfold synthesizer_raises in Hraise.
    cbv zeta in Hraise.
    destruct Hraise as [-> | [u [-> [-> | [name [-> ->]]]]]]; eexists; reflexivity. }
  destruct Hs as [d Hs]. exists (h4 ++ d).
  rewrite (pipeline_after_synthesizer sv data hint h _ _ _ _ _
             (ex_intro _ h4 (conj Ht (conj G Hs)))).
  rewrite sentinel_tts. reflexivity.
Qed.

Lemma synthesis_exception_closes_run_witness :
  exists h',
    pipeline_translate (tts_down (py "Hello world")) (Some []) (py "en") [] =
      (Ok (PyString (py "Hello world"), PyString (py "en"),
           PyString (py "Hello world"), PyNone), h').
Proof.
  apply (synthesis_exception_closes_run (tts_down (py "Hello world")) [] (py "en") []
           (py "Hello world") (py "en") (py "Hello world")
           (trace_to_detector (py "Hello world")) (py "boo")).
  - exists (trace_to_detector (py "Hello world")). split; [|reflexivity].
    apply (scripted_detects (py "Hello world") (Ok (py "en"))). reflexivity.
  - reflexivity.
  - right. exists tt. split; [reflexivity|]. right.
    exists mp3_path. split; reflexivity.
Defined.

(** *** The audio path *)

(** X12. A non-null audio path is the name of the ".mp3" temporary file made
    in this run, into which the speech of the translated text, in the
    resolved target language, was saved without an exception; making and
    saving are the last two events of the run. *)
Theorem audio_path_provenance (sv : env) (audio_file : option bytes) (hint : str)
    (h : trace) (r : result) (h' : trace) (path : str) :
  pipeline_translate sv audio_file hint h = (Ok r, h') ->
  audioOutputPath r = PyString path ->
  exists text detected pre u,
    translatedText r = PyString text /\
    detectedLanguage r = PyString detected /\
    since h h' =
      pre ++ [EvTempFile (py ".mp3");
              EvSave text (resolve_target hint detected) path] /\
    temp_create sv (h ++ pre) (py ".mp3") = Ok path /\
    gtts_save sv (h ++ pre ++ [EvTempFile (py ".mp3")]) text
      (resolve_target hint detected) path = Ok u.
Proof.
  intros Hrun Hpath. destruct audio_file as [data|].
  2:{ injection Hrun as <- _. discriminate Hpath. }
  destruct (pipeline_inversion sv data hint h r h' Hrun)
    as [t h2 Ht G | t c tl h4 Ht G | t c tl out h5 Hs G | t c tl out h5 Hs G];
    try discriminate Hpath.
  injection Hpath as ->.
  destruct Hs as [h4 [Ht [_ Hs]]].
  destruct (translates_trace sv data hint h _ _ _ _ Ht)
    as [tmp_path [dT [dX [_ [-> _]]]]].
  rewrite text_to_speech_eq in Hs. cbv zeta in Hs.
  match type of Hs with context [gtts_new sv (?h0 ++ _)] => set (h1 := h0) in * end.
  destruct (gtts_new sv _ tl _) as [u0|e].
  2:{ injection Hs as <- _. cbv in G. discriminate G. }
  destruct (temp_create sv _ (py ".mp3")) as [name|e] eqn:Hc.
  2:{ injection Hs as <- _. cbv in G. discriminate G. }
  destruct (gtts_save sv _ tl _ name) as [u|e] eqn:Hsave.
  2:{ injection Hs as <- _. cbv in G. discriminate G. }
  injection Hs as -> <-.
  match goal with
  | H1 := h ++ ?d1 |- _ =>
      exists tl, c, (d1 ++ [EvEnter Synthesizer; EvNewTTS tl (resolve_target hint c)]), u
  end.
  split; [reflexivity|]. split; [reflexivity|].
  unfold h1 in *. split; [|split].
  - rewrite <- app_assoc, since_app. assoc.
  - rewrite <- Hc. f_equal. assoc.
  - rewrite <- Hsave. f_equal. assoc.
Qed.

Lemma audio_path_provenance_witness :
  exists text detected pre u,
    PyString hello_ur = PyString text /\
    PyString (py "en") = PyString detected /\
    since [] happy_trace =
      pre ++ [EvTempFile (py ".mp3");
              EvSave text (resolve_target (py "auto") detected) mp3_path] /\
    temp_create happy ([] ++ pre) (py ".mp3") = Ok mp3_path /\
    gtts_save happy ([] ++ pre ++ [EvTempFile (py ".mp3")]) text
      (resolve_target (py "auto") detected) mp3_path = Ok u.
Proof.
  apply (audio_path_provenance happy (Some []) (py "auto") []
           (PyString (py "Hello world"), PyString (py "en"), PyString hello_ur,
            PyString mp3_path) happy_trace mp3_path); reflexivity.
Defined.

(** *** The Translator's calls *)

(** X13. A call of the Translator never raises.  Its remote calls and its
    sleeps, in the order they happen, are: nothing; or one call; or one
    call, one sleep of one second and a second call.  Every call has source
    "auto", the given target and the given text.  So there are at most two
    calls, and the only sleep lies between them. *)
Theorem translator_call_bounds (sv : env) (text dest_lang : str) (h : trace) :
  let req := EvTranslate (py "auto") dest_lang text in
  exists v d,
    translate_text sv text dest_lang h = (Ok v, h ++ d) /\
    In (filter (fun ev => is_translate ev || is_sleep ev) d)
       [[]; [req]; [req; EvSleep 1; req]].
Proof.
  cbv zeta.
  destruct (translate_text_shape sv text dest_lang h) as [v [d [E Hd]]].
  exists v, d. split; [exact E|].
  cbv zeta in Hd.
  destruct Hd as [-> | [-> | [-> | ->]]]; simpl; auto.
Qed.

(** X14. The retry is made exactly when the text is not blank, the
    translator is built, the first remote call returns a text, and that
    reply equals the text after trimming and lower-casing both. *)
Theorem retry_iff (sv : env) (text dest_lang : str) (h : trace) :
  retried_once dest_lang text (since h (snd (translate_text sv text dest_lang h)))
  <->
  (whitespace_only text = false /\
   exists u t1,
     translator_new sv (h ++ [EvEnter Translator]) (py "auto") dest_lang = Ok u /\
     translator_translate sv
       (h ++ [EvEnter Translator; EvNewTranslator (py "auto") dest_lang])
       (py "auto") dest_lang text = Ok (PyString t1) /\
     same_after_trim_and_lower sv t1 text).
Proof.
  rewrite translate_text_eq. cbv zeta.
  assert (Hblank : py_not (strip text) = whitespace_only text).
  { destruct (whitespace_only text) eqn:Hw.
    - apply strip_nil_iff in Hw. now rewrite Hw.
    - destruct (strip text) eqn:E; [|reflexivity].
      apply strip_nil_iff in E. congruence. }
  rewrite Hblank. unfold same_after_trim_and_lower.
  assert (Hno : forall d, (translate_calls d < 2)%nat ->
                          ~ retried_once dest_lang text d).
  { intros d Hlt [Hc _]. lia. }
  destruct (whitespace_only text).
  { simpl snd. rewrite since_app. split.
    - intros H. exfalso. revert H. apply Hno. cbv. lia.
    - intros [H _]. discriminate H. }
  destruct (translator_new sv _ _ dest_lang) as [u|e].
  2:{ simpl snd. rewrite since_app. split.
      - intros H. exfalso. revert H. apply Hno. cbv. lia.
      - intros [_ [u [t1 [H _]]]]. discriminate H. }
  destruct (translator_translate sv _ _ dest_lang text) as [[|t1]|e].
  1,3: simpl snd; rewrite since_app; split;
    [intros H; exfalso; revert H; apply Hno; cbv; lia
    |intros [_ [u' [t1' [_ [H _]]]]]; discriminate H].
  destruct (str_eqb (str_lower sv (strip t1)) (str_lower sv (strip text))) eqn:Hsame.
  - simpl snd. rewrite since_app. split.
    + intros _. split; [reflexivity|]. exists u, t1.
      apply str_eqb_eq in Hsame. auto.
    + intros _.
      apply (retried_once_intro dest_lang text
               [EvEnter Translator; EvNewTranslator (py "auto") dest_lang]);
        reflexivity.
  - simpl snd. rewrite since_app. split.
    + intros H. exfalso. revert H. apply Hno. cbv. lia.
    + intros [_ [u' [t1' [_ [H1 H2]]]]]. injection H1 as <-.
      apply str_eqb_neq in Hsame. contradiction.
Qed.

(** *** The page *)

(** [in_page H] goes through the widgets of a page that is written out. *)
Ltac in_page H :=
  unfold header, footer, sections in H; simpl in H;
  repeat (destruct H as [H | H]; [try discriminate H |]);
  try contradiction.

Lemma show_result_never_stops (sv : env) (exists_ : trace -> str -> bool)
    (r : result) (h : trace) :
  snd (fst (show_result sv exists_ r h)) <> Stopped.
Proof.
  destruct r as [[[a b] c] d]. unfold show_result.
  destruct a as [|t]; [discriminate|].
  destruct (_ || _); [discriminate|].
  destruct d as [|path]; [discriminate|].
  destruct (_ && _); [|discriminate].
  destruct (open_rb sv h path); discriminate.
Qed.

(** X15. The script stops at [st.stop()] exactly when the key is missing or
    empty; it has then shown the one error message and made no call. *)
Theorem stops_iff_key_missing (sv : env) (s : session) (h : trace) :
  (snd (fst (app_script sv s h)) = Stopped <->
   (api_key s = None \/ api_key s = Some [])) /\
  (snd (fst (app_script sv s h)) = Stopped ->
   app_script sv s h = ([StError missing_key_message], Stopped, h)).
Proof.
  unfold app_script.
  destruct (api_key s) as [[|k key]|]; simpl py_not; cbv iota.
  - split; [|reflexivity]. split; auto.
  - assert (Hno : snd (fst
        (if clicked s
         then
           match pipeline_translate sv (uploaded s) (selected s) h with
           | (Ok r, h') =>
               match show_result sv (path_exists s) r h' with
               | (body, Finished, h'') =>
                   ((header ++ [StSpinner (py "Processing your voice...")])
                    ++ body ++ footer, Finished, h'')
               | (body, stop, h'') =>
                   ((header ++ [StSpinner (py "Processing your voice...")]) ++ body,
                    stop, h'')
               end
           | (Raise e, h') =>
               (header ++ [StSpinner (py "Processing your voice...")], Crashed e, h')
           end
         else (header ++ footer, Finished, h))) <> Stopped).
    { destruct (clicked s); [|discriminate].
      destruct (pipeline_translate sv (uploaded s) (selected s) h) as [[r|e] h1];
        [|discriminate].
      pose proof (show_result_never_stops sv (path_exists s) r h1) as Hs.
      destruct (show_result sv (path_exists s) r h1) as [[body stop] h2].
      destruct stop; simpl in *; congruence. }
    split; [|intros H; contradiction].
    split; [intros H; contradiction|].
    intros [H|H]; discriminate H.
  - split; [|reflexivity]. split; auto.
Qed.

(** X16. The script reaches the outside world only when the key is set, the
    button was clicked and a file is uploaded: otherwise its run leaves no
    event at all. *)
Theorem no_call_without_key_click_file (sv : env) (s : session) (h : trace)
    (page : list widget) (e : ending) (h' : trace) :
  app_script sv s h = (page, e, h') ->
  since h h' <> [] ->
  (exists key, api_key s = Some key /\ key <> []) /\
  clicked s = true /\
  uploaded s <> None.
Proof.
  intros Hrun Hcalls. unfold app_script in Hrun.
  destruct (api_key s) as [[|k key]|]; simpl py_not in Hrun; cbv iota in Hrun;
    try (injection Hrun as _ _ <-; rewrite since_self in Hcalls; contradiction).
  split; [exists (k :: key); split; [reflexivity|discriminate]|].
  destruct (clicked s);
    [|injection Hrun as _ _ <-; rewrite since_self in Hcalls; contradiction].
  split; [reflexivity|].
  destruct (uploaded s); [discriminate|].
  exfalso. apply Hcalls.
  cbv in Hrun. injection Hrun as _ _ <-. apply since_self.
Qed.

Lemma no_call_without_key_click_file_witness :
  (exists key, api_key (visitor (Some []) (py "auto") true) = Some key /\ key <> []) /\
  clicked (visitor (Some []) (py "auto") true) = true /\
  uploaded (visitor (Some []) (py "auto") true) <> None.
Proof.
  apply (no_call_without_key_click_file happy (visitor (Some []) (py "auto") true) []
           (fst (fst (app_script happy (visitor (Some []) (py "auto") true) [])))
           Finished
           (happy_trace ++ [EvOpen mp3_path])).
  - reflexivity.
  - discriminate.
Defined.

(** X17. A click without an uploaded file shows, between the controls and
    the footer, the one error "[Error] No audio input": no success banner,
    no result section, no warning, and no call. *)
Theorem click_without_file (sv : env) (s : session) (h : trace) (key : str) :
  api_key s = Some key -> key <> [] ->
  clicked s = true ->
  uploaded s = None ->
  app_script sv s h =
    (header ++ [StSpinner (py "Processing your voice...");
                StError (py "[Error] No audio input")] ++ footer,
     Finished, h).
Proof.
  intros Hk Hne Hc Hu. unfold app_script. rewrite Hk, Hc, Hu.
  destruct key as [|k key]; [contradiction|]. reflexivity.
Qed.

Lemma click_without_file_witness :
  app_script happy (visitor None (py "auto") true) [] =
    (header ++ [StSpinner (py "Processing your voice...");
                StError (py "[Error] No audio input")] ++ footer,
     Finished, []).
Proof.
  apply (click_without_file happy (visitor None (py "auto") true) []
           (py "gsk_example")); [reflexivity|discriminate|reflexivity|reflexivity].
Defined.

(** What the page shows for a result: the error banner, or the three
    sections followed by the player, by the warning, or by a crash. *)
Lemma show_result_cases (sv : env) (exists_ : trace -> str -> bool) (h : trace)
    (t : str) (b c d : pyval) :
  let r := (PyString t, b, c, d) in
  (show_result sv exists_ r h = ([StError t], Finished, h) /\
   str_contains t (py "[Error]") || startswith t (py "[Transcription error]") = true)
  \/
  (str_contains t (py "[Error]") || startswith t (py "[Transcription error]") = false /\
   ((show_result sv exists_ r h =
       (sections (PyString t) b c ++ [StWarning (py "No audio output generated.")],
        Finished, h) /\
     (d = PyNone \/ d = PyString [] \/
      exists path, d = PyString path /\ exists_ h path = false))
    \/
    (exists path,
       d = PyString path /\ path <> [] /\ exists_ h path = true /\
       ((exists data,
           open_rb sv h path = Ok data /\
           show_result sv exists_ r h =
             (sections (PyString t) b c ++
              [StSubheader (128266 :: py " Translated Speech Output");
               StAudio data (py "audio/mp3")], Finished, h ++ [EvOpen path]))
        \/
        (exists e,
           open_rb sv h path = Raise e /\
           show_result sv exists_ r h =
             (sections (PyString t) b c ++
              [StSubheader (128266 :: py " Translated Speech Output")],
              Crashed e, h ++ [EvOpen path])))))).
Proof.
  cbv zeta. unfold show_result.
  destruct (_ || _); [left; auto|]. right. split; [reflexivity|].
  destruct d as [|path]; [left; auto|].
  destruct path as [|p path]; [left; auto|].
  destruct (exists_ h (p :: path)) eqn:Hex; simpl truthy; cbv beta iota delta [andb negb].
  - right. exists (p :: path). split; [reflexivity|]. split; [discriminate|].
    split; [exact Hex|].
    destruct (open_rb sv h (p :: path)) as [data|e].
    + left. exists data. rewrite <- app_assoc. auto.
    + right. exists e. auto.
  - left. split; [reflexivity|]. right. right. exists (p :: path). auto.
Qed.

(** X18. The page never shows [None] in a text section: the test of line
    123 and the text sections always get strings.  A run of the script is
    ended by an exception only when the temporary copy of the upload cannot
    be made or written, when the translation retry replies [None] (line 95
    then raises), or when the synthesized audio file cannot be opened. *)
Theorem page_shows_strings (sv : env) (s : session) (h : trace)
    (page : list widget) (e : ending) (h' : trace) :
  app_script sv s h = (page, e, h') ->
  (forall v, In (StText v) page -> exists text, v = PyString text) /\
  (forall msg, e = Crashed msg ->
     (exists data h1,
        uploaded s = Some data /\
        pipeline_translate sv (Some data) (selected s) h = (Raise msg, h1) /\
        (raised_by_copy sv data h msg h1 \/ raised_by_null_retry sv h msg h1)) \/
     exists r h1 path,
       pipeline_translate sv (uploaded s) (selected s) h = (Ok r, h1) /\
       audioOutputPath r = PyString path /\
       open_rb sv h1 path = Raise msg).
Proof.
  intros Hrun. unfold app_script in Hrun.
  destruct (match api_key s with None => true | Some key => py_not key end).
  { injection Hrun as <- <- _. split; [intros v H; in_page H|discriminate]. }
  destruct (clicked s).
  2:{ injection Hrun as <- <- _. split; [intros v H; in_page H|discriminate]. }
  destruct (pipeline_translate sv (uploaded s) (selected s) h) as [[r|m] h1] eqn:Hp.
  2:{ injection Hrun as <- <- _. split; [intros v H; in_page H|].
      intros msg E. injection E as ->. left.
      destruct (uploaded s) as [data|]; [|discriminate Hp].
      exists data, h1. split; [reflexivity|]. split; [exact Hp|].
      exact (pipeline_raise_causes sv data (selected s) h msg h1 Hp). }
  assert (Hshape : exists t b c d,
             r = (PyString t, b, c, d) /\
             (str_contains t (py "[Error]") || startswith t (py "[Transcription error]")
                = false ->
              exists tc tl, b = PyString tc /\ c = PyString tl)).
  { destruct (uploaded s) as [data|].
    - destruct (pipeline_inversion sv data (selected s) h r h1 Hp)
        as [t h2 Ht G | t c tl h4 Ht G | t c tl out h5 Hs G | t c tl out h5 Hs G];
        do 4 eexists; (split; [reflexivity|]); eauto.
      rewrite G, orb_true_r. discriminate.
    - injection Hp as <- _. do 4 eexists. split; [reflexivity|]. discriminate. }
  destruct Hshape as [t [b [c [d [-> Hfields]]]]].
  destruct (show_result_cases sv (path_exists s) h1 t b c d)
    as [[E Hb] | [Hb [[E Hd] | [path [-> [Hne [Hex [[data [Ho E]] | [m [Ho E]]]]]]]]]];
    cbv zeta in E; rewrite E in Hrun; injection Hrun as <- <- _;
    try (destruct (Hfields Hb) as [tc [tl [-> ->]]]).
  - split; [intros v H; in_page H|discriminate].
  - split; [|discriminate]. intros v H. in_page H; injection H as <-; eauto.
  - split; [|discriminate]. intros v H. in_page H; injection H as <-; eauto.
  - split.
    + intros v H. in_page H; injection H as <-; eauto.
    + intros msg Em. injection Em as ->. right. exists (PyString t, PyString tc, PyString tl, PyString path), h1, path. auto.
Qed.

Lemma page_shows_strings_witness :
  (forall v, In (StText v) (header ++ [StSpinner (py "Processing your voice...")]) ->
             exists text, v = PyString text) /\
  (forall msg, Crashed (py "No space left on device") = Crashed msg ->
     (exists data h1,
        Some [] = Some data /\
        pipeline_translate disk_full (Some data) (py "auto") [] = (Raise msg, h1) /\
        (raised_by_copy disk_full data [] msg h1 \/
         raised_by_null_retry disk_full [] msg h1)) \/
     exists r h1 path,
       pipeline_translate disk_full (Some []) (py "auto") [] = (Ok r, h1) /\
       audioOutputPath r = PyString path /\
       open_rb disk_full h1 path = Raise msg).
Proof.
  apply (page_shows_strings disk_full (visitor (Some []) (py "auto") true) []
           (header ++ [StSpinner (py "Processing your voice...")])
           (Crashed (py "No space left on device"))
           [EvTempFile (py ".wav")]).
  reflexivity.
Defined.

(** X19. A transcript that holds "[Error]" anywhere is shown as an error
    banner and nothing else of the result is shown, whatever the pipeline
    went on to translate and synthesize. *)
Theorem error_marker_hides_result (sv : env) (s : session) (h : trace) (key : str)
    (r : result) (h1 : trace) (t : str) :
  api_key s = Some key -> key <> [] ->
  clicked s = true ->
  pipeline_translate sv (uploaded s) (selected s) h = (Ok r, h1) ->
  transcribedText r = PyString t ->
  str_contains t (py "[Error]") = true ->
  app_script sv s h =
    (header ++ [StSpinner (py "Processing your voice..."); StError t] ++ footer,
     Finished, h1).
Proof.
  intros Hk Hne Hc Hp Ht Hmark. unfold app_script. rewrite Hk, Hc, Hp.
  destruct key as [|k key]; [contradiction|]. simpl py_not. cbv iota.
  destruct r as [[[a b] c] d]. simpl in Ht. subst a.
  unfold show_result. rewrite Hmark. reflexivity.
Qed.

Lemma error_marker_hides_result_witness :
  app_script dictation (visitor (Some []) (py "auto") true) [] =
    (header ++ [StSpinner (py "Processing your voice...");
                StError (py "it printed [Error] twice")] ++ footer,
     Finished,
     trace_to_detector (py "it printed [Error] twice") ++
     [EvEnter Translator; EvNewTranslator (py "auto") (py "ur");
      EvTranslate (py "auto") (py "ur") (py "it printed [Error] twice");
      EvEnter Synthesizer; EvNewTTS hello_ur (py "ur"); EvTempFile (py ".mp3");
      EvSave hello_ur (py "ur") mp3_path]).
Proof.
  apply (error_marker_hides_result dictation (visitor (Some []) (py "auto") true) []
           (py "gsk_example")
           (PyString (py "it printed [Error] twice"), PyString (py "en"),
            PyString hello_ur, PyString mp3_path));
    [reflexivity|discriminate|reflexivity|reflexivity|reflexivity|reflexivity].
Defined.

(** X20. An audio player on the page always plays the bytes read from the
    audio path the orchestrator returned, a non-empty path that exists, as
    "audio/mp3"; the run then finished, and the read is its last event. *)
Theorem audio_player_provenance (sv : env) (s : session) (h : trace)
    (page : list widget) (e : ending) (h' : trace) (data : bytes) (format : str) :
  app_script sv s h = (page, e, h') ->
  In (StAudio data format) page ->
  exists r h1 path,
    pipeline_translate sv (uploaded s) (selected s) h = (Ok r, h1) /\
    audioOutputPath r = PyString path /\ path <> [] /\
    path_exists s h1 path = true /\
    open_rb sv h1 path = Ok data /\
    format = py "audio/mp3" /\ e = Finished /\ h' = h1 ++ [EvOpen path].
Proof.
  intros Hrun Hin. unfold app_script in Hrun.
  destruct (match api_key s with None => true | Some key => py_not key end).
  { injection Hrun as <- _ _. in_page Hin. }
  destruct (clicked s).
  2:{ injection Hrun as <- _ _. in_page Hin. }
  destruct (pipeline_translate sv (uploaded s) (selected s) h) as [[r|m] h1] eqn:Hp.
  2:{ injection Hrun as <- _ _. in_page Hin. }
  destruct r as [[[a b] c] d].
  destruct a as [|t].
  { cbv beta iota delta [show_result] in Hrun. injection Hrun as <- _ _. in_page Hin. }
  destruct (show_result_cases sv (path_exists s) h1 t b c d)
    as [[E Hb] | [Hb [[E Hd] | [path [-> [Hne [Hex [[data' [Ho E]] | [m [Ho E]]]]]]]]]];
    cbv zeta in E; rewrite E in Hrun; injection Hrun as <- <- <-.
  - in_page Hin.
  - in_page Hin.
  - in_page Hin. injection Hin as <- <-.
    exists (PyString t, b, c, PyString path), h1, path. repeat split; auto.
  - in_page Hin.
Qed.

Lemma audio_player_provenance_witness :
  exists r h1 path,
    pipeline_translate happy (Some []) (py "auto") [] = (Ok r, h1) /\
    audioOutputPath r = PyString path /\ path <> [] /\
    path_exists (visitor (Some []) (py "auto") true) h1 path = true /\
    open_rb happy h1 path = Ok [] /\
    py "audio/mp3" = py "audio/mp3" /\ Finished = Finished /\
    happy_trace ++ [EvOpen mp3_path] = h1 ++ [EvOpen path].
Proof.
  apply (audio_player_provenance happy (visitor (Some []) (py "auto") true) []
           (fst (fst (app_script happy (visitor (Some []) (py "auto") true) [])))
           Finished (happy_trace ++ [EvOpen mp3_path]) [] (py "audio/mp3")).
  - reflexivity.
  - cbv. tauto.
Defined.

(** *** A failing detector *)

(** X21. An exception of the language detector does not stop the run and
    is not reported: the run gets past detection with the detected language
    "unknown", which the hint "auto" resolves to the target "en".  When the
    run returns, its tuple holds the transcript, "unknown" and a translated
    text; the only exception that can still leave it is the one of line 95
    on a [None] reply of the translation retry. *)
Theorem detection_failure_goes_on (sv : env) (data : bytes) (hint : str) (h : trace)
    (transcribed : str) (h2 : trace) (e : str) :
  transcribes sv data h transcribed h2 ->
  startswith transcribed (py "[Transcription error]") = false ->
  langdetect_detect sv (h2 ++ [EvEnter Detector]) transcribed = Raise e ->
  detects sv data h transcribed (py "unknown")
    (h2 ++ [EvEnter Detector; EvDetect transcribed]) /\
  resolve_target (py "auto") (py "unknown") = py "en" /\
  match pipeline_translate sv (Some data) hint h with
  | (Ok r, h') =>
      transcribedText r = PyString transcribed /\
      detectedLanguage r = PyString (py "unknown") /\
      exists tl, translatedText r = PyString tl
  | (Raise m, h') => raised_by_null_retry sv h m h'
  end.
Proof.
  intros Ht G Hraise.
  assert (Hd : detects sv data h transcribed (py "unknown")
                 (h2 ++ [EvEnter Detector; EvDetect transcribed])).
  { exists h2. split; [exact Ht|]. split; [exact G|].
    rewrite detect_language_eq, Hraise. reflexivity. }
  split; [exact Hd|]. split; [reflexivity|].
  rewrite (pipeline_after_detector sv data hint _ _ _ _ Hd).
  destruct (pipeline_tail_cases sv transcribed (py "unknown")
              (resolve_target hint (py "unknown"))
              (h2 ++ [EvEnter Detector; EvDetect transcribed]))
    as [[|tl] [h4 [Hs E]]].
  - rewrite E.
    apply (translates_null_raised sv data hint h transcribed (py "unknown") h4).
    exists (h2 ++ [EvEnter Detector; EvDetect transcribed]). auto.
  - destruct E as [[_ E] | [_ [out [h5 [_ E]]]]]; rewrite E; simpl; eauto.
Qed.

Lemma detection_failure_goes_on_witness :
  detects silence [] [] [] (py "unknown")
    (trace_to_transcriber ++ [EvEnter Detector; EvDetect []]) /\
  resolve_target (py "auto") (py "unknown") = py "en" /\
  match pipeline_translate silence (Some []) (py "auto") [] with
  | (Ok r, h') =>
      transcribedText r = PyString [] /\
      detectedLanguage r = PyString (py "unknown") /\
      exists tl, translatedText r = PyString tl
  | (Raise m, h') => raised_by_null_retry silence [] m h'
  end.
Proof.
  apply (detection_failure_goes_on silence [] (py "auto") [] [] trace_to_transcriber
           (py "No features in text.")).
  - exact silence_transcribes.
  - reflexivity.
  - reflexivity.
Defined.
